(** * CHPP application layer: the datagram dispatcher of [chpp/app.c]

    A shallow embedding of the receive path of the CHPP application layer
    ([chppProcessRxDatagram] and the functions it calls) and of the UUID
    formatter [chppUuidToStr], together with the properties the written
    specification states about them.

    The C code talks to its environment through calls (the log macro, the
    handlers of the predefined services, the dispatch functions of the
    registered services, the two transport-layer calls).  Those calls are
    recorded, in program order, in a trace of events.  The C code can also
    leave the defined part of the language (a read outside the receive
    buffer, a registry slot that holds no service, a function that ends
    without a return value); a run that does so stops with [Undefined]. *)

From Stdlib Require Import ZArith List Bool Lia String Ascii.
From Stdlib.Strings Require Import Byte.
Import ListNotations.
Local Open Scope Z_scope.

(** ** Constants of the missing headers *)

(** Modelled from the spec: [chpp/app.h] is not among the sources.  It
    declares the predefined handles, the start of the negotiated range,
    the four message types and the transport error code; [SIZE_MAX] and the
    size of the header struct come from the platform.  They are taken as
    parameters; [ChppPlatformOk] states what the code needs of them. *)
Class ChppPlatform : Type := {
  CHPP_HANDLE_NONE : Z;
  CHPP_HANDLE_LOOPBACK : Z;
  CHPP_HANDLE_DISCOVERY : Z;
  CHPP_HANDLE_NEGOTIATED_RANGE_START : Z;
  CHPP_MESSAGE_TYPE_CLIENT_REQUEST : Z;
  CHPP_MESSAGE_TYPE_SERVICE_RESPONSE : Z;
  CHPP_MESSAGE_TYPE_CLIENT_NOTIFICATION : Z;
  CHPP_MESSAGE_TYPE_SERVICE_NOTIFICATION : Z;
  CHPP_TRANSPORT_ERROR_APPLAYER : Z;
  SIZE_MAX : Z;
  sizeof_ChppAppHeader : Z
}.

(** The case labels of one [switch] are distinct constants (the C compiler
    rejects the program otherwise) and the predefined handles lie below the
    negotiated range. *)
Class ChppPlatformOk (P : ChppPlatform) : Prop := {
  none_not_loopback : CHPP_HANDLE_NONE <> CHPP_HANDLE_LOOPBACK;
  none_not_discovery : CHPP_HANDLE_NONE <> CHPP_HANDLE_DISCOVERY;
  loopback_not_discovery : CHPP_HANDLE_LOOPBACK <> CHPP_HANDLE_DISCOVERY;
  none_predefined : CHPP_HANDLE_NONE < CHPP_HANDLE_NEGOTIATED_RANGE_START;
  loopback_predefined :
    CHPP_HANDLE_LOOPBACK < CHPP_HANDLE_NEGOTIATED_RANGE_START;
  discovery_predefined :
    CHPP_HANDLE_DISCOVERY < CHPP_HANDLE_NEGOTIATED_RANGE_START;
  request_not_response :
    CHPP_MESSAGE_TYPE_CLIENT_REQUEST <> CHPP_MESSAGE_TYPE_SERVICE_RESPONSE;
  request_not_cnotif :
    CHPP_MESSAGE_TYPE_CLIENT_REQUEST <> CHPP_MESSAGE_TYPE_CLIENT_NOTIFICATION;
  request_not_snotif :
    CHPP_MESSAGE_TYPE_CLIENT_REQUEST <> CHPP_MESSAGE_TYPE_SERVICE_NOTIFICATION;
  response_not_cnotif :
    CHPP_MESSAGE_TYPE_SERVICE_RESPONSE <> CHPP_MESSAGE_TYPE_CLIENT_NOTIFICATION;
  response_not_snotif :
    CHPP_MESSAGE_TYPE_SERVICE_RESPONSE <>
    CHPP_MESSAGE_TYPE_SERVICE_NOTIFICATION;
  cnotif_not_snotif :
    CHPP_MESSAGE_TYPE_CLIENT_NOTIFICATION <>
    CHPP_MESSAGE_TYPE_SERVICE_NOTIFICATION
}.

(** ** Data *)

(** A [ChppDispatchFunction *] that is not null, named by its address. *)
Inductive ChppDispatchFunction : Type :=
| DispatchFn (addr : N).

(** A [struct ChppTransportState *], named by its address. *)
Inductive ChppTransportState : Type :=
| TransportAt (addr : N).

(** The fields of [struct ChppService] that [app.c] reads.  A function
    pointer field is [None] when it is [NULL]. *)
Record ChppService : Type := {
  minLength : Z;
  requestDispatchFunctionPtr : option ChppDispatchFunction;
  notificationDispatchFunctionPtr : option ChppDispatchFunction
}.

(** The fields of [struct ChppAppState] that [app.c] reads.
    [registeredServices] is the array of service pointers: its length is the
    capacity of the array and a slot is [None] when the pointer is [NULL]. *)
Record ChppAppState : Type := {
  transportContext : ChppTransportState;
  registeredServiceCount : N;
  registeredServices : list (option ChppService)
}.

(** What [chppAppInit] (the [memset] to zero) and the registration of
    services leave behind: the first [n] slots hold a service each, every
    later slot of the array is [NULL]. *)
Fixpoint slots_ok (n : nat) (slots : list (option ChppService)) : bool :=
  match n, slots with
  | O, _ => forallb (fun p => match p with None => true | Some _ => false end)
                    slots
  | S n', Some _ :: slots' => slots_ok n' slots'
  | S _, _ => false
  end.

Definition registry_ok (context : ChppAppState) : bool :=
  slots_ok (N.to_nat (registeredServiceCount context))
           (registeredServices context).

(** The receive buffer: the bytes that [buf] points to.  The length [len]
    the transport layer passes along is a separate argument, as in C. *)
Definition buffer : Type := list byte.

Definition byte_to_Z (b : byte) : Z := Z.of_N (Byte.to_N b).

(** ** Events *)

(** The [LOGE] lines of [app.c], one constructor per call site, with the
    arguments of the format string. *)
Inductive LogLine : Type :=
| InvalidPredefinedServiceRequest (handle : Z)
| InvalidPredefinedServiceResponse (handle : Z)
| NoClientNotifications (handle : Z)
| NoServiceNotifications (handle : Z)
| InvalidPredefinedHandle (handle : Z)
| DatagramTooShort (handle len : Z)
| CannotDispatchUnknownType (type handle : Z)
| InvalidHandle (handle len type transaction : Z)
| UnknownTypeForPredefined (type handle len transaction : Z)
| UnsupportedRxType (handle type : Z).

(** The functions that take a datagram: the handlers of the predefined
    services and the dispatch functions registered by negotiated services.
    Their bodies are not part of [app.c]; a call is recorded with its
    arguments and the context is taken to be the same after it. *)
Inductive Handler : Type :=
| chppDispatchLoopbackClientRequest
| chppDispatchDiscoveryClientRequest
| chppDispatchDiscoveryClient
| chppDispatchNonHandle
| Registered (f : ChppDispatchFunction).

Inductive Event : Type :=
| Log (line : LogLine)
| Dispatch (h : Handler) (context : ChppAppState) (buf : buffer) (len : Z)
| EnqueueTxErrorDatagram (transport : ChppTransportState) (code : Z)
| AppProcessDoneCb (transport : ChppTransportState) (buf : buffer).

Definition is_dispatch (e : Event) : bool :=
  match e with Dispatch _ _ _ _ => true | _ => false end.

Definition is_done (e : Event) : bool :=
  match e with AppProcessDoneCb _ _ => true | _ => false end.

Definition is_enqueue (e : Event) : bool :=
  match e with EnqueueTxErrorDatagram _ _ => true | _ => false end.

Definition is_log (e : Event) : bool :=
  match e with Log _ => true | _ => false end.

(** The handler and dispatcher invocations of a trace. *)
Definition dispatches (t : list Event) : list Event := filter is_dispatch t.

(** ** Runs *)

Inductive Fault : Type :=
| OutOfBoundsRead      (* a read outside the buffer or the registry array *)
| NullDereference      (* [->] through a registry slot that is [NULL] *)
| NoReturnValue.       (* the end of a non-void function was reached *)

Inductive Result (A : Type) : Type :=
| Returned (a : A)
| Undefined (f : Fault).
Arguments Returned {A} a.
Arguments Undefined {A} f.

Record Run (A : Type) : Type := mkRun {
  trace : list Event;
  result : Result A
}.
Arguments mkRun {A} trace result.
Arguments trace {A} r.
Arguments result {A} r.

Definition ret {A} (a : A) : Run A := mkRun [] (Returned a).

Definition undefined {A} (f : Fault) : Run A := mkRun [] (Undefined f).

Definition emit (e : Event) : Run unit := mkRun [e] (Returned tt).

Definition bind {A B} (m : Run A) (k : A -> Run B) : Run B :=
  match result m with
  | Returned a => mkRun (trace m ++ trace (k a)) (result (k a))
  | Undefined f => mkRun (trace m) (Undefined f)
  end.

Declare Scope run_scope.
Delimit Scope run_scope with run.
Notation "x <- m ;; k" := (bind m (fun x => k))
  (at level 61, m at next level, right associativity) : run_scope.
Notation "m ;; k" := (bind m (fun _ => k))
  (at level 61, right associativity) : run_scope.
Local Open Scope run_scope.

Definition returns {A} (r : Run A) : bool :=
  match result r with Returned _ => true | Undefined _ => false end.

(** How often a trace signals completion to the transport layer, and the
    runs that never do. *)
Definition done_count (t : list Event) : nat := List.length (filter is_done t).

Definition quiet {A} (r : Run A) : Prop := done_count (trace r) = 0%nat.

(** A run that, when it returns, has signalled completion exactly once, as
    its last event and with the given arguments, and that has not signalled
    it at all when it ends undefined. *)
Definition completes_once {A} (transport : ChppTransportState)
    (buf : list byte) (r : Run A) : Prop :=
  match result r with
  | Returned _ =>
      exists before,
        trace r = before ++ [AppProcessDoneCb transport buf]
        /\ done_count before = 0%nat
  | Undefined _ => done_count (trace r) = 0%nat
  end.

(** The runs that do nothing but log. *)
Definition only_logs {A} (r : Run A) : Prop :=
  forallb is_log (trace r) = true.

(** How often a trace enqueues a transport error. *)
Definition enqueue_count (t : list Event) : nat :=
  List.length (filter is_enqueue t).

(** ** The header of a datagram *)

(** Modelled from the spec: [struct ChppAppHeader] is declared in the missing
    [chpp/app.h].  The header starts the datagram with the handle (the first
    byte), the message type and the transaction identifier; each is printed
    by [app.c] as an 8-bit value and so takes one byte. *)
Definition sizeof_handle : Z := 1.
Definition sizeof_type : Z := 1.

Definition load (buf : buffer) (offset : nat) : Run Z :=
  match nth_error buf offset with
  | Some b => ret (byte_to_Z b)
  | None => undefined OutOfBoundsRead
  end.

Definition rxHeader_handle (buf : buffer) : Run Z := load buf 0.
Definition rxHeader_type (buf : buffer) : Run Z := load buf 1.
Definition rxHeader_transaction (buf : buffer) : Run Z := load buf 2.

(** ** The functions of [app.c] *)

Definition LOGE (line : LogLine) : Run unit := emit (Log line).

Definition call (h : Handler) (context : ChppAppState) (buf : buffer)
    (len : Z) : Run unit :=
  emit (Dispatch h context buf len).

Definition chppEnqueueTxErrorDatagram (transport : ChppTransportState)
    (code : Z) : Run unit :=
  emit (EnqueueTxErrorDatagram transport code).

Definition chppAppProcessDoneCb (transport : ChppTransportState)
    (buf : buffer) : Run unit :=
  emit (AppProcessDoneCb transport buf).

(** [p->field]: undefined through a null pointer. *)
Definition deref (p : option ChppService) : Run ChppService :=
  match p with
  | Some s => ret s
  | None => undefined NullDereference
  end.

Section App.

Context {P : ChppPlatform}.

(** [registeredServices[handle - CHPP_HANDLE_NEGOTIATED_RANGE_START]], with
    no check of the index against [registeredServiceCount]: a read outside
    the array is undefined, a read inside it returns the pointer stored
    there. *)
Definition chppServiceOfHandle (appContext : ChppAppState) (handle : Z)
    : Run (option ChppService) :=
  let index := handle - CHPP_HANDLE_NEGOTIATED_RANGE_START in
  if index <? 0 then undefined OutOfBoundsRead
  else match nth_error (registeredServices appContext) (Z.to_nat index) with
       | Some p => ret p
       | None => undefined OutOfBoundsRead
       end.

Definition chppProcessPredefinedClientRequest (context : ChppAppState)
    (buf : buffer) (len : Z) : Run unit :=
  handle <- rxHeader_handle buf ;;
  if handle =? CHPP_HANDLE_LOOPBACK then
    call chppDispatchLoopbackClientRequest context buf len
  else if handle =? CHPP_HANDLE_DISCOVERY then
    call chppDispatchDiscoveryClientRequest context buf len
  else
    LOGE (InvalidPredefinedServiceRequest handle).

Definition chppProcessPredefinedServiceResponse (context : ChppAppState)
    (buf : buffer) (len : Z) : Run unit :=
  handle <- rxHeader_handle buf ;;
  if handle =? CHPP_HANDLE_LOOPBACK then
    ret tt  (* TODO in the source *)
  else if handle =? CHPP_HANDLE_DISCOVERY then
    call chppDispatchDiscoveryClient context buf len
  else
    LOGE (InvalidPredefinedServiceResponse handle).

Definition chppProcessPredefinedClientNotification (context : ChppAppState)
    (buf : buffer) (len : Z) : Run unit :=
  handle <- rxHeader_handle buf ;;
  LOGE (NoClientNotifications handle).

Definition chppProcessPredefinedServiceNotification (context : ChppAppState)
    (buf : buffer) (len : Z) : Run unit :=
  handle <- rxHeader_handle buf ;;
  LOGE (NoServiceNotifications handle).

Definition chppDatagramLenIsOk (context : ChppAppState) (handle len : Z)
    : Run bool :=
  minLen <-
    (if handle <? CHPP_HANDLE_NEGOTIATED_RANGE_START then
       (* Predefined services *)
       if handle =? CHPP_HANDLE_NONE then
         ret sizeof_handle
       else if handle =? CHPP_HANDLE_LOOPBACK then
         ret (sizeof_handle + sizeof_type)
       else if handle =? CHPP_HANDLE_DISCOVERY then
         ret sizeof_ChppAppHeader
       else
         LOGE (InvalidPredefinedHandle handle) ;;
         ret SIZE_MAX
     else
       (* Negotiated services *)
       service <- chppServiceOfHandle context handle ;;
       s <- deref service ;;
       ret (minLength s)) ;;
  (if len <? minLen then LOGE (DatagramTooShort handle len) else ret tt) ;;
  ret (len >=? minLen).

(** What the last two statements of the validator amount to for a given
    minimum: the log line of a short datagram and the verdict. *)
Definition length_verdict (handle len minLen : Z) : Run bool :=
  mkRun (if len <? minLen then [Log (DatagramTooShort handle len)] else [])
        (Returned (len >=? minLen)).

(** The [default] case of the source logs, enqueues the transport error and
    then reaches the closing brace of a function whose value the caller
    uses. *)
Definition chppGetDispatchFunction (context : ChppAppState) (handle type : Z)
    : Run (option ChppDispatchFunction) :=
  if type =? CHPP_MESSAGE_TYPE_CLIENT_REQUEST then
    service <- chppServiceOfHandle context handle ;;
    s <- deref service ;;
    ret (requestDispatchFunctionPtr s)
  else if type =? CHPP_MESSAGE_TYPE_SERVICE_RESPONSE then
    ret None  (* TODO in the source *)
  else if type =? CHPP_MESSAGE_TYPE_CLIENT_NOTIFICATION then
    service <- chppServiceOfHandle context handle ;;
    s <- deref service ;;
    ret (notificationDispatchFunctionPtr s)
  else if type =? CHPP_MESSAGE_TYPE_SERVICE_NOTIFICATION then
    ret None  (* TODO in the source *)
  else
    LOGE (CannotDispatchUnknownType type handle) ;;
    chppEnqueueTxErrorDatagram (transportContext context)
                               CHPP_TRANSPORT_ERROR_APPLAYER ;;
    undefined NoReturnValue.

(** The source reads [rxHeader->handle] again at every use; nothing between
    those reads writes the buffer, so the model reads it once.  The type and
    the transaction are read where the source first needs them. *)
Definition chppProcessRxDatagram (context : ChppAppState) (buf : buffer)
    (len : Z) : Run unit :=
  handle <- rxHeader_handle buf ;;
  ok <- chppDatagramLenIsOk context handle len ;;
  (if ok then
     if handle >=? Z.of_N (registeredServiceCount context)
                   + CHPP_HANDLE_NEGOTIATED_RANGE_START then
       type <- rxHeader_type buf ;;
       transaction <- rxHeader_transaction buf ;;
       LOGE (InvalidHandle handle len type transaction)
     else if handle =? CHPP_HANDLE_NONE then
       (* Non-handle based communication *)
       call chppDispatchNonHandle context buf len
     else if handle <? CHPP_HANDLE_NEGOTIATED_RANGE_START then
       (* Predefined services / clients *)
       type <- rxHeader_type buf ;;
       if type =? CHPP_MESSAGE_TYPE_CLIENT_REQUEST then
         chppProcessPredefinedClientRequest context buf len
       else if type =? CHPP_MESSAGE_TYPE_CLIENT_NOTIFICATION then
         chppProcessPredefinedClientNotification context buf len
       else if type =? CHPP_MESSAGE_TYPE_SERVICE_RESPONSE then
         chppProcessPredefinedServiceResponse context buf len
       else if type =? CHPP_MESSAGE_TYPE_SERVICE_NOTIFICATION then
         chppProcessPredefinedServiceNotification context buf len
       else
         transaction <- rxHeader_transaction buf ;;
         LOGE (UnknownTypeForPredefined type handle len transaction) ;;
         chppEnqueueTxErrorDatagram (transportContext context)
                                    CHPP_TRANSPORT_ERROR_APPLAYER
     else
       (* Negotiated services / clients *)
       type <- rxHeader_type buf ;;
       dispatchFunc <- chppGetDispatchFunction context handle type ;;
       match dispatchFunc with
       | None => LOGE (UnsupportedRxType handle type)
       | Some f => call (Registered f) context buf len
       end
   else ret tt) ;;
  chppAppProcessDoneCb (transportContext context) buf.

End App.

(** ** The UUID formatter *)

Module Uuid.

(** The sixteen digits of [%x], in order of value. *)
Definition hex_digits : string := "0123456789abcdef".

(** The digit of a value below sixteen. *)
Definition hex_digit (n : N) : ascii :=
  match String.get (N.to_nat n) hex_digits with
  | Some c => c
  | None => "f"%char
  end.

(** [%02x] applied to a [uint8_t]: the value is below 256, so the output is
    its two hexadecimal digits, the high one first, zero padded. *)
Definition hex_hi (b : byte) : ascii := hex_digit (Byte.to_N b / 16).
Definition hex_lo (b : byte) : ascii := hex_digit (Byte.to_N b mod 16).

Definition fmt_02x (b : byte) : string :=
  String (hex_hi b) (String (hex_lo b) EmptyString).

(** The directives of the format string of [chppUuidToStr], in order: a
    [%02x] with the index of the [uuid] byte passed for it, or a dash. *)
Inductive Directive : Type :=
| Hex02 (index : nat)
| Dash.

Definition uuid_format : list Directive :=
  [Hex02 0; Hex02 1; Hex02 2; Hex02 3; Dash;
   Hex02 4; Hex02 5; Dash;
   Hex02 6; Hex02 7; Dash;
   Hex02 8; Hex02 9; Dash;
   Hex02 10; Hex02 11; Hex02 12; Hex02 13; Hex02 14; Hex02 15].

(** [sprintf] over such a format: [None] when an argument [uuid[i]] lies
    outside the array that was passed. *)
Fixpoint sprintf (format : list Directive) (uuid : list byte)
    : option string :=
  match format with
  | [] => Some EmptyString
  | Dash :: format' =>
      option_map (String "-"%char) (sprintf format' uuid)
  | Hex02 i :: format' =>
      match nth_error uuid i with
      | Some b => option_map (append (fmt_02x b)) (sprintf format' uuid)
      | None => None
      end
  end.

Definition chppUuidToStr (uuid : list byte) : option string :=
  sprintf uuid_format uuid.

(** The inverse direction, used to state that no information is lost: the
    value of a hexadecimal digit and a reader of the dashed form. *)
Fixpoint index_of (c : ascii) (s : string) : option N :=
  match s with
  | EmptyString => None
  | String d s' =>
      if Ascii.eqb c d then Some 0%N else option_map N.succ (index_of c s')
  end.

Definition hex_value (c : ascii) : option N := index_of c hex_digits.

Definition byte_of_hex (hi lo : ascii) : option byte :=
  match hex_value hi, hex_value lo with
  | Some h, Some l => Byte.of_N (16 * h + l)%N
  | _, _ => None
  end.

Fixpoint sscanf (format : list Directive) (s : string) : option (list byte) :=
  match format, s with
  | [], EmptyString => Some []
  | Dash :: format', String "-"%char s' => sscanf format' s'
  | Hex02 _ :: format', String hi (String lo s') =>
      match byte_of_hex hi lo, sscanf format' s' with
      | Some b, Some bs => Some (b :: bs)
      | _, _ => None
      end
  | _, _ => None
  end.

Definition chppStrToUuid (s : string) : option (list byte) :=
  sscanf uuid_format s.

(** The shape [xxxxxxxx-xxxx-xxxx-xxxx-xxxxxxxxxxxx]: an [x] of the template
    stands for one lowercase hexadecimal digit, any other character for
    itself. *)
Definition is_lower_hex (c : ascii) : bool :=
  match hex_value c with Some _ => true | None => false end.

Fixpoint matches_template (template s : string) : bool :=
  match template, s with
  | EmptyString, EmptyString => true
  | String "x"%char template', String c s' =>
      is_lower_hex c && matches_template template' s'
  | String d template', String c s' =>
      Ascii.eqb d c && matches_template template' s'
  | _, _ => false
  end.

Definition uuid_template : string := "xxxxxxxx-xxxx-xxxx-xxxx-xxxxxxxxxxxx".

(** The bytes of a list in hexadecimal, one after the other. *)
Fixpoint hex_of (bytes : list byte) : string :=
  match bytes with
  | [] => EmptyString
  | b :: bytes' => append (fmt_02x b) (hex_of bytes')
  end.

(** The dashed form written out: bytes 0 to 3, 4 and 5, 6 and 7, 8 and 9,
    10 to 15 of the input, in this order. *)
Definition dashed (uuid : list byte) : string :=
  append (hex_of (firstn 4 uuid))
    (String "-" (append (hex_of (firstn 2 (skipn 4 uuid)))
      (String "-" (append (hex_of (firstn 2 (skipn 6 uuid)))
        (String "-" (append (hex_of (firstn 2 (skipn 8 uuid)))
          (String "-" (hex_of (firstn 6 (skipn 10 uuid))))))))))%char.

Definition sample_uuid : list byte :=
  [x12; x34; x56; x78; x9a; xbc; xde; xf0;
   x01; x23; x45; x67; x89; xab; xcd; xef]%byte.

End Uuid.

(** ** A concrete platform and concrete contexts *)

(** Modelled from the spec: sample values for the constants of the missing
    [chpp/app.h], with [CHPP_HANDLE_NONE] zero as the spec has it, a 64-bit
    [size_t] and a header of six bytes. *)
#[local] Instance sample_platform : ChppPlatform := {|
  CHPP_HANDLE_NONE := 0;
  CHPP_HANDLE_LOOPBACK := 1;
  CHPP_HANDLE_DISCOVERY := 15;
  CHPP_HANDLE_NEGOTIATED_RANGE_START := 16;
  CHPP_MESSAGE_TYPE_CLIENT_REQUEST := 0;
  CHPP_MESSAGE_TYPE_SERVICE_RESPONSE := 1;
  CHPP_MESSAGE_TYPE_CLIENT_NOTIFICATION := 2;
  CHPP_MESSAGE_TYPE_SERVICE_NOTIFICATION := 3;
  CHPP_TRANSPORT_ERROR_APPLAYER := 7;
  SIZE_MAX := 18446744073709551615;
  sizeof_ChppAppHeader := 6
|}.

Definition sample_transport : ChppTransportState := TransportAt 4096.

Definition sample_service : ChppService := {|
  minLength := 6;
  requestDispatchFunctionPtr := Some (DispatchFn 100);
  notificationDispatchFunctionPtr := None
|}.

(** A context right after [chppAppInit] with one service registered in an
    array of four slots. *)
Definition sample_context : ChppAppState := {|
  transportContext := sample_transport;
  registeredServiceCount := 1;
  registeredServices := [Some sample_service; None; None; None]
|}.

(** A context whose array of a single slot is full. *)
Definition full_context : ChppAppState := {|
  transportContext := sample_transport;
  registeredServiceCount := 1;
  registeredServices := [Some sample_service]
|}.

(** A datagram of six bytes with the given handle and type. *)
Definition datagram (handle type : byte) : buffer :=
  [handle; type; x2a; x00; x00; x00]%byte.

(** [chppProcessRxDatagram] and the completion event on the sample platform
    and transport. *)
Definition sample_run : ChppAppState -> buffer -> Z -> Run unit :=
  @chppProcessRxDatagram sample_platform.

Definition sample_done (buf : buffer) : Event :=
  AppProcessDoneCb sample_transport buf.

(** ** Measures on traces *)

Section Measures.

Context {P : ChppPlatform}.

(** The four values of [enum ChppMessageType]. *)
Definition is_message_type (type : Z) : bool :=
  (type =? CHPP_MESSAGE_TYPE_CLIENT_REQUEST)
  || (type =? CHPP_MESSAGE_TYPE_SERVICE_RESPONSE)
  || (type =? CHPP_MESSAGE_TYPE_CLIENT_NOTIFICATION)
  || (type =? CHPP_MESSAGE_TYPE_SERVICE_NOTIFICATION).

End Measures.

(** The calls of a trace that hand the datagram or an error on: handler and
    dispatcher invocations and transport errors. *)
Definition effect_count (t : list Event) : nat :=
  (List.length (dispatches t) + enqueue_count t)%nat.

(** A second service, with a notification dispatcher, and a context in which
    both services are registered. *)
Definition notifying_service : ChppService := {|
  minLength := 6;
  requestDispatchFunctionPtr := None;
  notificationDispatchFunctionPtr := Some (DispatchFn 200)
|}.

Definition two_service_context : ChppAppState := {|
  transportContext := sample_transport;
  registeredServiceCount := 2;
  registeredServices := [Some sample_service; Some notifying_service;
                         None; None]
|}.

(** * Properties *)

(** ** Laws of runs *)

Lemma bind_ret {A B} (a : A) (k : A -> Run B) : bind (ret a) k = k a.
Proof. unfold bind; simpl. destruct (k a); reflexivity. Qed.

Lemma bind_undefined {A B} (f : Fault) (k : A -> Run B) :
  bind (undefined f) k = undefined f.
Proof. reflexivity. Qed.

Lemma bind_emit {B} (e : Event) (k : unit -> Run B) :
  bind (emit e) k = mkRun (e :: trace (k tt)) (result (k tt)).
Proof. reflexivity. Qed.

Lemma bind_mkRun_returned {A B} (t : list Event) (a : A) (k : A -> Run B) :
  bind (mkRun t (Returned a)) k = mkRun (t ++ trace (k a)) (result (k a)).
Proof. reflexivity. Qed.

Lemma bind_mkRun_undefined {A B} (t : list Event) (f : Fault)
    (k : A -> Run B) :
  bind (mkRun t (Undefined f)) k = mkRun t (Undefined f).
Proof. reflexivity. Qed.

Lemma bind_assoc {A B C} (m : Run A) (k : A -> Run B) (k' : B -> Run C) :
  bind (bind m k) k' = bind m (fun a => bind (k a) k').
Proof.
  destruct m as [t [a | f]]; unfold bind; simpl; [| reflexivity].
  destruct (k a) as [t' [b | f']]; simpl; [| reflexivity].
  now rewrite app_assoc.
Qed.

Lemma trace_bind_prefix {A B} (m : Run A) (k : A -> Run B) :
  exists rest, trace (bind m k) = trace m ++ rest.
Proof.
  destruct m as [t [a | f]]; unfold bind; simpl.
  - now exists (trace (k a)).
  - exists []. now rewrite app_nil_r.
Qed.

Lemma bind_stops {A B} (m : Run A) (k : A -> Run B) (f : Fault) :
  result m = Undefined f -> bind m k = mkRun (trace m) (Undefined f).
Proof. intros H. unfold bind. now rewrite H. Qed.

Create Rewrite HintDb run.
#[local] Hint Rewrite @bind_ret @bind_undefined @bind_emit
  @bind_mkRun_returned @bind_mkRun_undefined : run.

Lemma load_cases (buf : buffer) (offset : nat) :
  load buf offset = undefined OutOfBoundsRead
  \/ exists z, load buf offset = ret z.
Proof. unfold load. destruct (nth_error buf offset); eauto. Qed.

(** ** Facts about the registry *)

Lemma slots_ok_registered (n : nat) (slots : list (option ChppService))
    (i : nat) :
  slots_ok n slots = true -> (i < n)%nat ->
  exists s, nth_error slots i = Some (Some s).
Proof.
  revert slots i. induction n as [| n IH]; intros slots i Hok Hi; [lia |].
  destruct slots as [| [s |] slots]; simpl in Hok; try discriminate.
  destruct i as [| i]; simpl.
  - now exists s.
  - apply IH; [assumption | lia].
Qed.

Lemma slots_ok_unregistered (n : nat) (slots : list (option ChppService))
    (i : nat) :
  slots_ok n slots = true -> (n <= i)%nat ->
  nth_error slots i = None \/ nth_error slots i = Some None.
Proof.
  revert slots i. induction n as [| n IH]; intros slots i Hok Hi.
  - simpl in Hok. destruct (nth_error slots i) as [[s |] |] eqn:E; auto.
    apply nth_error_In in E. rewrite forallb_forall in Hok.
    now apply Hok in E.
  - destruct slots as [| [s |] slots]; simpl in Hok; try discriminate.
    destruct i as [| i]; [lia |]. simpl. apply IH; [assumption | lia].
Qed.

(** ** Deciding the tests of the code *)

(** [settle c] replaces the comparison [c] by the truth value that linear
    arithmetic over the hypotheses gives it. *)
Ltac settle c :=
  let E := fresh "E" in
  first
    [ assert (E : c = true)
        by (first [apply Z.ltb_lt | apply Z.eqb_eq | apply Z.leb_le]; lia)
    | assert (E : c = false)
        by (first [apply Z.ltb_ge | apply Z.eqb_neq | apply Z.leb_gt]; lia) ];
  rewrite E; clear E.

Ltac settle_tests :=
  rewrite ?Z.geb_leb;
  repeat match goal with
         | |- context [Z.ltb ?a ?b] => settle (Z.ltb a b)
         | |- context [Z.eqb ?a ?b] => settle (Z.eqb a b)
         | |- context [Z.leb ?a ?b] => settle (Z.leb a b)
         end.

Ltac platform_facts OK :=
  pose proof (@none_not_loopback _ OK);
  pose proof (@none_not_discovery _ OK);
  pose proof (@loopback_not_discovery _ OK);
  pose proof (@none_predefined _ OK);
  pose proof (@loopback_predefined _ OK);
  pose proof (@discovery_predefined _ OK);
  pose proof (@request_not_response _ OK);
  pose proof (@request_not_cnotif _ OK);
  pose proof (@request_not_snotif _ OK);
  pose proof (@response_not_cnotif _ OK);
  pose proof (@response_not_snotif _ OK);
  pose proof (@cnotif_not_snotif _ OK).

Ltac run_simpl :=
  repeat (progress (autorewrite with run; cbn beta iota; simpl)).

Lemma sample_platform_ok : ChppPlatformOk sample_platform.
Proof. constructor; simpl; lia. Qed.

Section Dispatcher.

Context {P : ChppPlatform} {OK : ChppPlatformOk P}.

(** *** The length validator *)

Lemma length_verdict_bind (handle len minLen : Z) :
  ((if len <? minLen then LOGE (DatagramTooShort handle len) else ret tt) ;;
   ret (len >=? minLen)) = length_verdict handle len minLen.
Proof. unfold length_verdict. destruct (len <? minLen); reflexivity. Qed.

Lemma chppDatagramLenIsOk_none (context : ChppAppState) (len : Z) :
  chppDatagramLenIsOk context CHPP_HANDLE_NONE len =
  length_verdict CHPP_HANDLE_NONE len sizeof_handle.
Proof.
  platform_facts OK. unfold chppDatagramLenIsOk.
  settle (CHPP_HANDLE_NONE <? CHPP_HANDLE_NEGOTIATED_RANGE_START).
  rewrite Z.eqb_refl, bind_ret. apply length_verdict_bind.
Qed.

Lemma chppDatagramLenIsOk_loopback (context : ChppAppState) (len : Z) :
  chppDatagramLenIsOk context CHPP_HANDLE_LOOPBACK len =
  length_verdict CHPP_HANDLE_LOOPBACK len (sizeof_handle + sizeof_type).
Proof.
  platform_facts OK. unfold chppDatagramLenIsOk.
  settle (CHPP_HANDLE_LOOPBACK <? CHPP_HANDLE_NEGOTIATED_RANGE_START).
  settle (CHPP_HANDLE_LOOPBACK =? CHPP_HANDLE_NONE).
  rewrite Z.eqb_refl, bind_ret. apply length_verdict_bind.
Qed.

Lemma chppDatagramLenIsOk_discovery (context : ChppAppState) (len : Z) :
  chppDatagramLenIsOk context CHPP_HANDLE_DISCOVERY len =
  length_verdict CHPP_HANDLE_DISCOVERY len sizeof_ChppAppHeader.
Proof.
  platform_facts OK. unfold chppDatagramLenIsOk.
  settle (CHPP_HANDLE_DISCOVERY <? CHPP_HANDLE_NEGOTIATED_RANGE_START).
  settle (CHPP_HANDLE_DISCOVERY =? CHPP_HANDLE_NONE).
  settle (CHPP_HANDLE_DISCOVERY =? CHPP_HANDLE_LOOPBACK).
  rewrite Z.eqb_refl, bind_ret. apply length_verdict_bind.
Qed.

(** Any other handle below the negotiated range: one more log line, and a
    minimum of [SIZE_MAX]. *)
Lemma chppDatagramLenIsOk_invalid_predefined (context : ChppAppState)
    (handle len : Z) :
  handle < CHPP_HANDLE_NEGOTIATED_RANGE_START ->
  handle <> CHPP_HANDLE_NONE ->
  handle <> CHPP_HANDLE_LOOPBACK ->
  handle <> CHPP_HANDLE_DISCOVERY ->
  chppDatagramLenIsOk context handle len =
  mkRun (Log (InvalidPredefinedHandle handle)
           :: trace (length_verdict handle len SIZE_MAX))
        (Returned (len >=? SIZE_MAX)).
Proof.
  intros Hlt Hn Hl Hd. unfold chppDatagramLenIsOk.
  settle (handle <? CHPP_HANDLE_NEGOTIATED_RANGE_START).
  settle (handle =? CHPP_HANDLE_NONE).
  settle (handle =? CHPP_HANDLE_LOOPBACK).
  settle (handle =? CHPP_HANDLE_DISCOVERY).
  rewrite bind_assoc. unfold LOGE at 1.
  rewrite bind_emit, bind_ret, length_verdict_bind. reflexivity.
Qed.

(** A handle of the negotiated range: the registry is read at
    [handle - CHPP_HANDLE_NEGOTIATED_RANGE_START], whatever the number of
    registered services. *)
Lemma chppDatagramLenIsOk_negotiated (context : ChppAppState)
    (handle len : Z) :
  CHPP_HANDLE_NEGOTIATED_RANGE_START <= handle ->
  chppDatagramLenIsOk context handle len =
  match nth_error (registeredServices context)
                  (Z.to_nat (handle - CHPP_HANDLE_NEGOTIATED_RANGE_START)) with
  | Some (Some s) => length_verdict handle len (minLength s)
  | Some None => undefined NullDereference
  | None => undefined OutOfBoundsRead
  end.
Proof.
  intros Hge. unfold chppDatagramLenIsOk, chppServiceOfHandle.
  settle (handle <? CHPP_HANDLE_NEGOTIATED_RANGE_START).
  settle (handle - CHPP_HANDLE_NEGOTIATED_RANGE_START <? 0).
  destruct (nth_error _ _) as [[s |] |]; run_simpl; try reflexivity.
  apply length_verdict_bind.
Qed.

Lemma registered_service (context : ChppAppState) (handle : Z) :
  registry_ok context = true ->
  CHPP_HANDLE_NEGOTIATED_RANGE_START <= handle ->
  handle < CHPP_HANDLE_NEGOTIATED_RANGE_START
           + Z.of_N (registeredServiceCount context) ->
  exists s,
    nth_error (registeredServices context)
              (Z.to_nat (handle - CHPP_HANDLE_NEGOTIATED_RANGE_START))
    = Some (Some s).
Proof.
  intros Hok Hlo Hhi. apply (slots_ok_registered _ _ _ Hok). lia.
Qed.

Lemma unregistered_service (context : ChppAppState) (handle : Z) :
  registry_ok context = true ->
  CHPP_HANDLE_NEGOTIATED_RANGE_START
    + Z.of_N (registeredServiceCount context) <= handle ->
  let slot := nth_error (registeredServices context)
                (Z.to_nat (handle - CHPP_HANDLE_NEGOTIATED_RANGE_START)) in
  slot = None \/ slot = Some None.
Proof.
  intros Hok Hge. apply (slots_ok_unregistered _ _ _ Hok). lia.
Qed.

(** *** Routing *)

(** C5.  A datagram addressed to the loopback handle: with a length of at
    least the size of the handle field plus the type field, a Client Request
    is handed to the loopback request handler with the context, the buffer
    and the length, and nothing else happens before the completion callback;
    with a shorter length the validator logs the short datagram and no
    handler is invoked. *)
Theorem loopback_client_request (context : ChppAppState) (buf : buffer)
    (len : Z) :
  rxHeader_handle buf = ret CHPP_HANDLE_LOOPBACK ->
  (sizeof_handle + sizeof_type <= len ->
   rxHeader_type buf = ret CHPP_MESSAGE_TYPE_CLIENT_REQUEST ->
   chppProcessRxDatagram context buf len =
   mkRun [Dispatch chppDispatchLoopbackClientRequest context buf len;
          AppProcessDoneCb (transportContext context) buf]
         (Returned tt))
  /\
  (len < sizeof_handle + sizeof_type ->
   chppProcessRxDatagram context buf len =
   mkRun [Log (DatagramTooShort CHPP_HANDLE_LOOPBACK len);
          AppProcessDoneCb (transportContext context) buf]
         (Returned tt)
   /\ dispatches (trace (chppProcessRxDatagram context buf len)) = []).
Proof.
  intros Hhandle. platform_facts OK.
  assert (Hlen : forall k : bool -> Run unit,
             (ok <- chppDatagramLenIsOk context CHPP_HANDLE_LOOPBACK len ;;
              k ok)
             = (ok <- length_verdict CHPP_HANDLE_LOOPBACK len
                                     (sizeof_handle + sizeof_type) ;; k ok))
    by (intros k; now rewrite chppDatagramLenIsOk_loopback).
  split.
  - intros Hlong Htype.
    unfold chppProcessRxDatagram. rewrite Hhandle, bind_ret, Hlen.
    unfold length_verdict. settle_tests. run_simpl.
    pose proof (N2Z.is_nonneg (registeredServiceCount context)).
    settle_tests. rewrite Htype. run_simpl. rewrite Z.eqb_refl.
    unfold chppProcessPredefinedClientRequest.
    rewrite Hhandle. run_simpl. rewrite Z.eqb_refl. reflexivity.
  - intros Hshort.
    assert (E : chppProcessRxDatagram context buf len =
                mkRun [Log (DatagramTooShort CHPP_HANDLE_LOOPBACK len);
                       AppProcessDoneCb (transportContext context) buf]
                      (Returned tt)).
    { unfold chppProcessRxDatagram. rewrite Hhandle, bind_ret, Hlen.
      unfold length_verdict. settle_tests. reflexivity. }
    rewrite E. split; reflexivity.
Qed.

(** *** The completion callback *)

Lemma done_count_app (t t' : list Event) :
  done_count (t ++ t') = (done_count t + done_count t')%nat.
Proof. unfold done_count. now rewrite filter_app, List.length_app. Qed.

Lemma quiet_bind {A B} (m : Run A) (k : A -> Run B) :
  quiet m -> (forall a, quiet (k a)) -> quiet (bind m k).
Proof.
  unfold quiet. intros Hm Hk. destruct m as [t [a | f]]; unfold bind; simpl.
  - rewrite done_count_app. simpl in Hm. rewrite Hm. apply Hk.
  - exact Hm.
Qed.

Lemma quiet_load (buf : buffer) (offset : nat) : quiet (load buf offset).
Proof. unfold load. destruct (nth_error buf offset); reflexivity. Qed.

Lemma quiet_deref (p : option ChppService) : quiet (deref p).
Proof. destruct p; reflexivity. Qed.

Lemma quiet_chppServiceOfHandle (context : ChppAppState) (handle : Z) :
  quiet (chppServiceOfHandle context handle).
Proof.
  unfold chppServiceOfHandle.
  destruct (_ <? 0); [reflexivity |].
  destruct (nth_error _ _); reflexivity.
Qed.

Create HintDb quiet.
#[local] Hint Resolve quiet_load quiet_deref quiet_chppServiceOfHandle
  : quiet.

(** Splits a run along its binds and tests; what is left is a run of one
    event or none. *)
Ltac quiet_steps :=
  repeat first
    [ apply quiet_bind; [| intros]
    | match goal with
      | |- quiet (if ?c then _ else _) => destruct c
      | |- quiet (match ?d with Some _ => _ | None => _ end) => destruct d
      end
    | solve [auto with quiet]
    | reflexivity ].

Lemma quiet_chppDatagramLenIsOk (context : ChppAppState) (handle len : Z) :
  quiet (chppDatagramLenIsOk context handle len).
Proof. unfold chppDatagramLenIsOk. quiet_steps. Qed.

Lemma quiet_chppGetDispatchFunction (context : ChppAppState)
    (handle type : Z) :
  quiet (chppGetDispatchFunction context handle type).
Proof. unfold chppGetDispatchFunction. quiet_steps. Qed.

Lemma quiet_predefined (context : ChppAppState) (buf : buffer) (len : Z) :
  quiet (chppProcessPredefinedClientRequest context buf len)
  /\ quiet (chppProcessPredefinedServiceResponse context buf len)
  /\ quiet (chppProcessPredefinedClientNotification context buf len)
  /\ quiet (chppProcessPredefinedServiceNotification context buf len).
Proof.
  unfold chppProcessPredefinedClientRequest,
    chppProcessPredefinedServiceResponse,
    chppProcessPredefinedClientNotification,
    chppProcessPredefinedServiceNotification, rxHeader_handle.
  repeat split; quiet_steps.
Qed.

(** A quiet run followed by the callback: the callback is the last event of
    a run that returns, and the only one of its kind. *)
Lemma done_after_quiet {A} (m : Run A) (transport : ChppTransportState)
    (buf : buffer) :
  quiet m ->
  completes_once transport buf
    (bind m (fun _ => chppAppProcessDoneCb transport buf)).
Proof.
  intros Hm. unfold completes_once.
  destruct m as [t [a | f]]; unfold bind; simpl.
  - now exists t.
  - exact Hm.
Qed.

Lemma completes_once_bind {A B} (m : Run A) (k : A -> Run B)
    (transport : ChppTransportState) (buf : buffer) :
  quiet m -> (forall a, completes_once transport buf (k a)) ->
  completes_once transport buf (bind m k).
Proof.
  unfold quiet, completes_once. intros Hm Hk.
  destruct m as [t [a | f]]; unfold bind; simpl; [| exact Hm].
  specialize (Hk a). simpl in Hm.
  destruct (result (k a)).
  - destruct Hk as (before & Ht & Hb). exists (t ++ before). split.
    + now rewrite Ht, app_assoc.
    + now rewrite done_count_app, Hm, Hb.
  - now rewrite done_count_app, Hm, Hk.
Qed.

Lemma chppProcessRxDatagram_completes_once (context : ChppAppState)
    (buf : buffer) (len : Z) :
  completes_once (transportContext context) buf
                 (chppProcessRxDatagram context buf len).
Proof.
  unfold chppProcessRxDatagram.
  apply completes_once_bind; [apply quiet_load | intros handle].
  apply completes_once_bind; [apply quiet_chppDatagramLenIsOk | intros ok].
  apply done_after_quiet.
  destruct (quiet_predefined context buf len) as (? & ? & ? & ?).
  unfold rxHeader_type, rxHeader_transaction.
  repeat first
    [ apply quiet_chppGetDispatchFunction
    | assumption
    | apply quiet_bind; [| intros]
    | match goal with
      | |- quiet (if ?c then _ else _) => destruct c
      | |- quiet (match ?d with Some _ => _ | None => _ end) => destruct d
      end
    | solve [auto with quiet]
    | reflexivity ].
Qed.

(** Every run of [chppProcessRxDatagram] that returns, whichever branch it
    took, calls [chppAppProcessDoneCb] exactly once, as its last action,
    with the transport context of the application context and the buffer it
    was given. *)
Lemma completion_callback_exactly_once (context : ChppAppState)
    (buf : buffer) (len : Z) :
  result (chppProcessRxDatagram context buf len) = Returned tt ->
  done_count (trace (chppProcessRxDatagram context buf len)) = 1%nat
  /\ exists before,
       trace (chppProcessRxDatagram context buf len) =
       before ++ [AppProcessDoneCb (transportContext context) buf]
       /\ done_count before = 0%nat.
Proof.
  intros Hret.
  pose proof (chppProcessRxDatagram_completes_once context buf len) as H.
  unfold completes_once in H. rewrite Hret in H.
  destruct H as (before & Ht & Hb). split.
  - rewrite Ht, done_count_app, Hb. reflexivity.
  - now exists before.
Qed.

(** No run calls the callback twice, and a run that leaves the defined part
    of C does so before the callback. *)
Lemma completion_callback_never_early (context : ChppAppState)
    (buf : buffer) (len : Z) (f : Fault) :
  result (chppProcessRxDatagram context buf len) = Undefined f ->
  done_count (trace (chppProcessRxDatagram context buf len)) = 0%nat.
Proof.
  intros Hundef.
  pose proof (chppProcessRxDatagram_completes_once context buf len) as H.
  unfold completes_once in H. now rewrite Hundef in H.
Qed.

(** C2.  The callback that ends [chppProcessRxDatagram] is not reached on
    the path of the addressing error: for a handle at or beyond the
    registered services the run leaves defined C inside the validator and
    has not called [chppAppProcessDoneCb], so the callback is called zero
    times, not once. *)
Theorem completion_callback_missed (context : ChppAppState) (buf : buffer)
    (len handle : Z) :
  registry_ok context = true ->
  rxHeader_handle buf = ret handle ->
  CHPP_HANDLE_NEGOTIATED_RANGE_START
    + Z.of_N (registeredServiceCount context) <= handle ->
  done_count (trace (chppProcessRxDatagram context buf len)) = 0%nat
  /\ result (chppProcessRxDatagram context buf len) <> Returned tt.
Proof.
  intros Hok Hhandle Hge.
  pose proof (N2Z.is_nonneg (registeredServiceCount context)).
  unfold chppProcessRxDatagram.
  rewrite Hhandle, bind_ret, chppDatagramLenIsOk_negotiated by lia.
  destruct (unregistered_service context handle Hok Hge) as [E | E];
    rewrite E; split; [reflexivity | discriminate | reflexivity
                       | discriminate].
Qed.

(** *** Negotiated handles *)

(** A datagram for a registered service that is long enough reaches the
    selection of the dispatch function. *)
Lemma negotiated_long_enough (context : ChppAppState) (buf : buffer)
    (len handle type : Z) (s : ChppService) :
  rxHeader_handle buf = ret handle ->
  CHPP_HANDLE_NEGOTIATED_RANGE_START <= handle ->
  handle < CHPP_HANDLE_NEGOTIATED_RANGE_START
           + Z.of_N (registeredServiceCount context) ->
  nth_error (registeredServices context)
            (Z.to_nat (handle - CHPP_HANDLE_NEGOTIATED_RANGE_START))
  = Some (Some s) ->
  minLength s <= len ->
  rxHeader_type buf = ret type ->
  chppProcessRxDatagram context buf len =
  ((dispatchFunc <- chppGetDispatchFunction context handle type ;;
    match dispatchFunc with
    | None => LOGE (UnsupportedRxType handle type)
    | Some f => call (Registered f) context buf len
    end) ;;
   chppAppProcessDoneCb (transportContext context) buf).
Proof.
  intros Hhandle Hlo Hhi Hslot Hlen Htype. platform_facts OK.
  unfold chppProcessRxDatagram.
  rewrite Hhandle, bind_ret, chppDatagramLenIsOk_negotiated, Hslot by lia.
  unfold length_verdict. settle_tests. rewrite bind_mkRun_returned.
  simpl trace. cbn beta iota. rewrite Htype, bind_ret.
  destruct (bind _ _); reflexivity.
Qed.

Lemma negotiated_too_short (context : ChppAppState) (buf : buffer)
    (len handle : Z) (s : ChppService) :
  rxHeader_handle buf = ret handle ->
  CHPP_HANDLE_NEGOTIATED_RANGE_START <= handle ->
  nth_error (registeredServices context)
            (Z.to_nat (handle - CHPP_HANDLE_NEGOTIATED_RANGE_START))
  = Some (Some s) ->
  len < minLength s ->
  chppProcessRxDatagram context buf len =
  mkRun [Log (DatagramTooShort handle len);
         AppProcessDoneCb (transportContext context) buf]
        (Returned tt).
Proof.
  intros Hhandle Hlo Hslot Hlen.
  unfold chppProcessRxDatagram.
  rewrite Hhandle, bind_ret, chppDatagramLenIsOk_negotiated, Hslot by lia.
  unfold length_verdict. settle_tests. reflexivity.
Qed.

Lemma chppServiceOfHandle_slot (context : ChppAppState) (handle : Z)
    (p : option ChppService) :
  CHPP_HANDLE_NEGOTIATED_RANGE_START <= handle ->
  nth_error (registeredServices context)
            (Z.to_nat (handle - CHPP_HANDLE_NEGOTIATED_RANGE_START))
  = Some p ->
  chppServiceOfHandle context handle = ret p.
Proof.
  intros Hlo Hslot. unfold chppServiceOfHandle.
  settle (handle - CHPP_HANDLE_NEGOTIATED_RANGE_START <? 0).
  now rewrite Hslot.
Qed.

(** C6.  A Client Request for a registered negotiated handle: the registry
    holds a service at the offset of the handle; with a length of at least
    its minimum the request dispatch function of that service is invoked with
    the context, the buffer and the length, followed only by the completion
    callback; with a shorter length the datagram is logged as too short and
    no dispatch function is invoked. *)
Theorem negotiated_client_request (context : ChppAppState) (buf : buffer)
    (len handle : Z) :
  registry_ok context = true ->
  rxHeader_handle buf = ret handle ->
  CHPP_HANDLE_NEGOTIATED_RANGE_START <= handle ->
  handle < CHPP_HANDLE_NEGOTIATED_RANGE_START
           + Z.of_N (registeredServiceCount context) ->
  exists s,
    nth_error (registeredServices context)
              (Z.to_nat (handle - CHPP_HANDLE_NEGOTIATED_RANGE_START))
    = Some (Some s)
    /\ (minLength s <= len ->
        rxHeader_type buf = ret CHPP_MESSAGE_TYPE_CLIENT_REQUEST ->
        forall f, requestDispatchFunctionPtr s = Some f ->
        chppProcessRxDatagram context buf len =
        mkRun [Dispatch (Registered f) context buf len;
               AppProcessDoneCb (transportContext context) buf]
              (Returned tt))
    /\ (len < minLength s ->
        chppProcessRxDatagram context buf len =
        mkRun [Log (DatagramTooShort handle len);
               AppProcessDoneCb (transportContext context) buf]
              (Returned tt)
        /\ dispatches (trace (chppProcessRxDatagram context buf len)) = []).
Proof.
  intros Hok Hhandle Hlo Hhi.
  destruct (registered_service context handle Hok Hlo Hhi) as (s & Hslot).
  exists s. split; [exact Hslot | split].
  - intros Hlen Htype f Hf.
    rewrite (negotiated_long_enough context buf len handle _ s
               Hhandle Hlo Hhi Hslot Hlen Htype).
    unfold chppGetDispatchFunction. rewrite Z.eqb_refl.
    rewrite (chppServiceOfHandle_slot context handle _ Hlo Hslot).
    run_simpl. rewrite Hf. reflexivity.
  - intros Hlen.
    rewrite (negotiated_too_short context buf len handle s
               Hhandle Hlo Hslot Hlen).
    split; reflexivity.
Qed.

(** Without a request dispatch function the same datagram is logged as
    unsupported. *)
Lemma negotiated_client_request_unsupported (context : ChppAppState)
    (buf : buffer) (len handle : Z) (s : ChppService) :
  rxHeader_handle buf = ret handle ->
  CHPP_HANDLE_NEGOTIATED_RANGE_START <= handle ->
  handle < CHPP_HANDLE_NEGOTIATED_RANGE_START
           + Z.of_N (registeredServiceCount context) ->
  nth_error (registeredServices context)
            (Z.to_nat (handle - CHPP_HANDLE_NEGOTIATED_RANGE_START))
  = Some (Some s) ->
  minLength s <= len ->
  rxHeader_type buf = ret CHPP_MESSAGE_TYPE_CLIENT_REQUEST ->
  requestDispatchFunctionPtr s = None ->
  chppProcessRxDatagram context buf len =
  mkRun [Log (UnsupportedRxType handle CHPP_MESSAGE_TYPE_CLIENT_REQUEST);
         AppProcessDoneCb (transportContext context) buf]
        (Returned tt).
Proof.
  intros Hhandle Hlo Hhi Hslot Hlen Htype Hf.
  rewrite (negotiated_long_enough context buf len handle _ s
             Hhandle Hlo Hhi Hslot Hlen Htype).
  unfold chppGetDispatchFunction. rewrite Z.eqb_refl.
  rewrite (chppServiceOfHandle_slot context handle _ Hlo Hslot).
  run_simpl. rewrite Hf. reflexivity.
Qed.

(** The selector has no dispatch function for the two service-to-client
    types, and does not look at the registry for them. *)
Lemma chppGetDispatchFunction_service_types (context : ChppAppState)
    (handle type : Z) :
  type = CHPP_MESSAGE_TYPE_SERVICE_RESPONSE
  \/ type = CHPP_MESSAGE_TYPE_SERVICE_NOTIFICATION ->
  chppGetDispatchFunction context handle type = ret None.
Proof.
  platform_facts OK. intros [-> | ->]; unfold chppGetDispatchFunction;
    settle_tests; reflexivity.
Qed.

(** C7.  A Service Response or a Service Notification of sufficient length
    for a registered negotiated handle: the selector returns no dispatch
    function, the datagram is logged as an unsupported Rx message type and
    no dispatch function is invoked. *)
Theorem negotiated_service_message_unsupported (context : ChppAppState)
    (buf : buffer) (len handle type : Z) :
  registry_ok context = true ->
  rxHeader_handle buf = ret handle ->
  CHPP_HANDLE_NEGOTIATED_RANGE_START <= handle ->
  handle < CHPP_HANDLE_NEGOTIATED_RANGE_START
           + Z.of_N (registeredServiceCount context) ->
  rxHeader_type buf = ret type ->
  type = CHPP_MESSAGE_TYPE_SERVICE_RESPONSE
  \/ type = CHPP_MESSAGE_TYPE_SERVICE_NOTIFICATION ->
  exists s,
    nth_error (registeredServices context)
              (Z.to_nat (handle - CHPP_HANDLE_NEGOTIATED_RANGE_START))
    = Some (Some s)
    /\ (minLength s <= len ->
        chppGetDispatchFunction context handle type = ret None
        /\ chppProcessRxDatagram context buf len =
           mkRun [Log (UnsupportedRxType handle type);
                  AppProcessDoneCb (transportContext context) buf]
                 (Returned tt)
        /\ dispatches (trace (chppProcessRxDatagram context buf len)) = []).
Proof.
  intros Hok Hhandle Hlo Hhi Htype Hkind.
  destruct (registered_service context handle Hok Hlo Hhi) as (s & Hslot).
  exists s. split; [exact Hslot |]. intros Hlen.
  pose proof (chppGetDispatchFunction_service_types context handle type Hkind)
    as Hsel.
  rewrite (negotiated_long_enough context buf len handle _ s
             Hhandle Hlo Hhi Hslot Hlen Htype), Hsel.
  repeat split; reflexivity.
Qed.

(** *** Predefined handles *)

Lemma predefined_request_invalid (context : ChppAppState) (buf : buffer)
    (len handle : Z) :
  rxHeader_handle buf = ret handle ->
  handle <> CHPP_HANDLE_LOOPBACK -> handle <> CHPP_HANDLE_DISCOVERY ->
  chppProcessPredefinedClientRequest context buf len =
  LOGE (InvalidPredefinedServiceRequest handle)
  /\ chppProcessPredefinedServiceResponse context buf len =
     LOGE (InvalidPredefinedServiceResponse handle).
Proof.
  intros Hhandle Hl Hd.
  unfold chppProcessPredefinedClientRequest,
    chppProcessPredefinedServiceResponse.
  rewrite Hhandle, !bind_ret. settle_tests. split; reflexivity.
Qed.

Lemma predefined_notifications (context : ChppAppState) (buf : buffer)
    (len handle : Z) :
  rxHeader_handle buf = ret handle ->
  chppProcessPredefinedClientNotification context buf len =
  LOGE (NoClientNotifications handle)
  /\ chppProcessPredefinedServiceNotification context buf len =
     LOGE (NoServiceNotifications handle).
Proof.
  intros Hhandle.
  unfold chppProcessPredefinedClientNotification,
    chppProcessPredefinedServiceNotification.
  rewrite Hhandle, !bind_ret. split; reflexivity.
Qed.

(** C8.  A handle below the negotiated range that is none of NONE, loopback
    and discovery: whatever the type and the length, the run starts with the
    log line for an invalid predefined handle and invokes no handler and no
    dispatch function; for every length below [SIZE_MAX] the datagram is
    dropped by the validator. *)
Theorem invalid_predefined_handle_dropped (context : ChppAppState)
    (buf : buffer) (len handle : Z) :
  rxHeader_handle buf = ret handle ->
  handle < CHPP_HANDLE_NEGOTIATED_RANGE_START ->
  handle <> CHPP_HANDLE_NONE ->
  handle <> CHPP_HANDLE_LOOPBACK ->
  handle <> CHPP_HANDLE_DISCOVERY ->
  (exists rest,
     trace (chppProcessRxDatagram context buf len) =
     Log (InvalidPredefinedHandle handle) :: rest)
  /\ dispatches (trace (chppProcessRxDatagram context buf len)) = []
  /\ (len < SIZE_MAX ->
      chppProcessRxDatagram context buf len =
      mkRun [Log (InvalidPredefinedHandle handle);
             Log (DatagramTooShort handle len);
             AppProcessDoneCb (transportContext context) buf]
            (Returned tt)).
Proof.
  intros Hhandle Hlt Hn Hl Hd.
  destruct (predefined_request_invalid context buf len handle Hhandle Hl Hd)
    as (Ereq & Eresp).
  destruct (predefined_notifications context buf len handle Hhandle)
    as (Ecn & Esn).
  pose proof (N2Z.is_nonneg (registeredServiceCount context)).
  unfold chppProcessRxDatagram.
  rewrite Hhandle, bind_ret,
    (chppDatagramLenIsOk_invalid_predefined context handle len Hlt Hn Hl Hd).
  unfold length_verdict. rewrite Z.geb_leb.
  destruct (Z.ltb_spec len SIZE_MAX) as [Hshort | Hlong].
  - settle_tests. rewrite bind_mkRun_returned. simpl.
    repeat split; eauto.
  - settle_tests. rewrite bind_mkRun_returned. simpl trace. cbn beta iota.
    settle_tests. rewrite Ereq, Eresp, Ecn, Esn.
    unfold rxHeader_type, rxHeader_transaction.
    destruct (load_cases buf 1) as [-> | (type & ->)];
      [split; [eauto | split; [reflexivity | lia]] |].
    rewrite bind_ret.
    destruct (load_cases buf 2) as [-> | (transaction & ->)];
      repeat match goal with
             | |- context [if ?c then _ else _] => destruct c
             end;
      (split; [eauto | split; [reflexivity | lia]]).
Qed.

(** *** Handles beyond the registered services *)

(** C3.  The validator, the first thing [chppProcessRxDatagram] calls, looks
    the service up for every handle of the negotiated range before any
    comparison with the number of registered services.  For a handle at or
    beyond the registered ones the lookup reads a slot that holds no service
    (or lies outside the array), and the validator is undefined. *)
Theorem lookup_before_range_check (context : ChppAppState) (handle len : Z) :
  registry_ok context = true ->
  CHPP_HANDLE_NEGOTIATED_RANGE_START
    + Z.of_N (registeredServiceCount context) <= handle ->
  (chppServiceOfHandle context handle = undefined OutOfBoundsRead
   /\ chppDatagramLenIsOk context handle len = undefined OutOfBoundsRead)
  \/
  (chppServiceOfHandle context handle = ret None
   /\ chppDatagramLenIsOk context handle len = undefined NullDereference).
Proof.
  intros Hok Hge.
  pose proof (N2Z.is_nonneg (registeredServiceCount context)).
  rewrite chppDatagramLenIsOk_negotiated by lia.
  unfold chppServiceOfHandle.
  settle (handle - CHPP_HANDLE_NEGOTIATED_RANGE_START <? 0).
  destruct (unregistered_service context handle Hok Hge) as [E | E];
    rewrite E; auto.
Qed.

(** C1.  A datagram whose handle is at or beyond the negotiated range start
    plus the number of registered services never reaches the branch that
    logs the addressing error: the run is undefined inside the validator,
    with an empty trace (no log line, no completion callback). *)
Theorem out_of_range_handle_undefined (context : ChppAppState)
    (buf : buffer) (len handle : Z) :
  registry_ok context = true ->
  rxHeader_handle buf = ret handle ->
  CHPP_HANDLE_NEGOTIATED_RANGE_START
    + Z.of_N (registeredServiceCount context) <= handle ->
  exists f, chppProcessRxDatagram context buf len = undefined f.
Proof.
  intros Hok Hhandle Hge. unfold chppProcessRxDatagram.
  rewrite Hhandle, bind_ret.
  destruct (lookup_before_range_check context handle len Hok Hge)
    as [(_ & E) | (_ & E)]; rewrite E; eexists; reflexivity.
Qed.

(** With a slot that (against [registry_ok]) holds a stale service
    descriptor, the addressing error is logged only for datagrams that are
    long enough for that descriptor. *)
Lemma out_of_range_handle_stale_slot (context : ChppAppState)
    (buf : buffer) (len handle type transaction : Z) (s : ChppService) :
  rxHeader_handle buf = ret handle ->
  rxHeader_type buf = ret type ->
  rxHeader_transaction buf = ret transaction ->
  CHPP_HANDLE_NEGOTIATED_RANGE_START
    + Z.of_N (registeredServiceCount context) <= handle ->
  nth_error (registeredServices context)
            (Z.to_nat (handle - CHPP_HANDLE_NEGOTIATED_RANGE_START))
  = Some (Some s) ->
  chppProcessRxDatagram context buf len =
  mkRun [Log (if len <? minLength s
              then DatagramTooShort handle len
              else InvalidHandle handle len type transaction);
         AppProcessDoneCb (transportContext context) buf]
        (Returned tt).
Proof.
  intros Hhandle Htype Htrans Hge Hslot.
  pose proof (N2Z.is_nonneg (registeredServiceCount context)).
  unfold chppProcessRxDatagram.
  rewrite Hhandle, bind_ret, chppDatagramLenIsOk_negotiated, Hslot by lia.
  unfold length_verdict. rewrite Z.geb_leb.
  destruct (Z.ltb_spec len (minLength s)).
  - settle_tests. reflexivity.
  - settle_tests. rewrite bind_mkRun_returned. simpl trace. cbn beta iota.
    rewrite Htype, bind_ret, Htrans, bind_ret. reflexivity.
Qed.

(** *** Unknown message types *)

Lemma only_logs_enqueue_count (t : list Event) :
  forallb is_log t = true -> enqueue_count t = 0%nat /\ dispatches t = [].
Proof.
  unfold enqueue_count, dispatches.
  induction t as [| [] t IH]; simpl; try discriminate; auto.
Qed.

Lemma only_logs_bind {A B} (m : Run A) (k : A -> Run B) :
  only_logs m -> (forall a, only_logs (k a)) -> only_logs (bind m k).
Proof.
  unfold only_logs. intros Hm Hk.
  destruct m as [t [a | f]]; unfold bind; simpl; [| exact Hm].
  rewrite forallb_app. simpl in Hm. rewrite Hm. apply Hk.
Qed.

Lemma chppDatagramLenIsOk_only_logs (context : ChppAppState)
    (handle len : Z) :
  only_logs (chppDatagramLenIsOk context handle len).
Proof.
  unfold chppDatagramLenIsOk, chppServiceOfHandle, deref.
  repeat first
    [ apply only_logs_bind; [| intros]
    | match goal with
      | |- only_logs (if ?c then _ else _) => destruct c
      | |- only_logs (match ?d with Some _ => _ | None => _ end) => destruct d
      end
    | reflexivity ].
Qed.

Lemma enqueue_count_app (t t' : list Event) :
  enqueue_count (t ++ t') = (enqueue_count t + enqueue_count t')%nat.
Proof. unfold enqueue_count. now rewrite filter_app, List.length_app. Qed.

Lemma dispatches_app (t t' : list Event) :
  dispatches (t ++ t') = dispatches t ++ dispatches t'.
Proof. apply filter_app. Qed.

(** C4, as the code has it.  A datagram that passes the length check, whose
    type is none of the four message types and whose handle is neither NONE
    nor beyond the registered services: the error is logged and
    [chppEnqueueTxErrorDatagram] is called exactly once, with the transport
    context and the application-layer error code.  For a predefined handle
    the run then returns and has invoked no handler. *)
Theorem unknown_type_reported (context : ChppAppState) (buf : buffer)
    (len handle type transaction : Z) :
  rxHeader_handle buf = ret handle ->
  rxHeader_type buf = ret type ->
  rxHeader_transaction buf = ret transaction ->
  type <> CHPP_MESSAGE_TYPE_CLIENT_REQUEST ->
  type <> CHPP_MESSAGE_TYPE_CLIENT_NOTIFICATION ->
  type <> CHPP_MESSAGE_TYPE_SERVICE_RESPONSE ->
  type <> CHPP_MESSAGE_TYPE_SERVICE_NOTIFICATION ->
  result (chppDatagramLenIsOk context handle len) = Returned true ->
  handle <> CHPP_HANDLE_NONE ->
  handle < CHPP_HANDLE_NEGOTIATED_RANGE_START
           + Z.of_N (registeredServiceCount context) ->
  (In (Log (UnknownTypeForPredefined type handle len transaction))
      (trace (chppProcessRxDatagram context buf len))
   \/ In (Log (CannotDispatchUnknownType type handle))
         (trace (chppProcessRxDatagram context buf len)))
  /\ enqueue_count (trace (chppProcessRxDatagram context buf len)) = 1%nat
  /\ In (EnqueueTxErrorDatagram (transportContext context)
                                CHPP_TRANSPORT_ERROR_APPLAYER)
        (trace (chppProcessRxDatagram context buf len))
  /\ (handle < CHPP_HANDLE_NEGOTIATED_RANGE_START ->
      result (chppProcessRxDatagram context buf len) = Returned tt
      /\ dispatches (trace (chppProcessRxDatagram context buf len)) = []).
Proof.
  intros Hhandle Htype Htrans Hreq Hcn Hresp Hsn Hpass Hnone Hhi.
  platform_facts OK.
  pose proof (chppDatagramLenIsOk_only_logs context handle len) as Hlogs.
  apply only_logs_enqueue_count in Hlogs. destruct Hlogs as (Henq & Hdisp).
  destruct (Z.ltb_spec handle CHPP_HANDLE_NEGOTIATED_RANGE_START)
    as [Hpre | Hneg].
  - unfold chppProcessRxDatagram. rewrite Hhandle, bind_ret.
    destruct (chppDatagramLenIsOk context handle len) as [t [ok | f]];
      simpl in Hpass, Henq, Hdisp; [| discriminate].
    injection Hpass as ->. rewrite bind_mkRun_returned.
    cbn beta iota. settle_tests. rewrite Htype, bind_ret. settle_tests.
    rewrite Htrans, bind_ret. simpl.
    rewrite enqueue_count_app, dispatches_app, Henq, Hdisp.
    repeat split; try reflexivity; try lia.
    + left. apply in_or_app. right. simpl. auto.
    + apply in_or_app. right. simpl. auto.
  - rewrite chppDatagramLenIsOk_negotiated in Hpass by assumption.
    destruct (nth_error (registeredServices context) _) as [[s |] |] eqn:Hslot;
      try discriminate.
    unfold length_verdict in Hpass. simpl in Hpass.
    assert (Hlen : minLength s <= len).
    { injection Hpass as Hpass. rewrite Z.geb_leb in Hpass.
      now apply Z.leb_le. }
    rewrite (negotiated_long_enough context buf len handle type s)
      by (assumption || lia).
    unfold chppGetDispatchFunction. settle_tests.
    unfold LOGE, chppEnqueueTxErrorDatagram. simpl.
    repeat split; auto; lia.
Qed.

(** *** The read of the handle *)

(** The handle is read from the first byte of the buffer before the length
    is looked at: with an empty buffer the run is undefined at that read
    whatever [len] is (zero included), and with a first byte [b] the run
    starts with the validator applied to the value of [b] and to [len]; it
    stops where the validator stops and goes straight to the completion
    callback when the validator says no. *)
Lemma run_follows_validator (context : ChppAppState) (len : Z) :
  chppProcessRxDatagram context [] len = undefined OutOfBoundsRead
  /\ forall (b : byte) (rest : buffer),
       rxHeader_handle (b :: rest) = ret (byte_to_Z b)
       /\ (exists tail,
             trace (chppProcessRxDatagram context (b :: rest) len) =
             trace (chppDatagramLenIsOk context (byte_to_Z b) len) ++ tail)
       /\ (forall f,
             result (chppDatagramLenIsOk context (byte_to_Z b) len)
             = Undefined f ->
             chppProcessRxDatagram context (b :: rest) len =
             mkRun (trace (chppDatagramLenIsOk context (byte_to_Z b) len))
                   (Undefined f))
       /\ (result (chppDatagramLenIsOk context (byte_to_Z b) len)
           = Returned false ->
           chppProcessRxDatagram context (b :: rest) len =
           mkRun (trace (chppDatagramLenIsOk context (byte_to_Z b) len)
                    ++ [AppProcessDoneCb (transportContext context)
                                         (b :: rest)])
                 (Returned tt)).
Proof.
  split; [reflexivity |]. intros b rest.
  assert (E : exists k : bool -> Run unit,
             chppProcessRxDatagram context (b :: rest) len =
             bind (chppDatagramLenIsOk context (byte_to_Z b) len) k
             /\ k false = chppAppProcessDoneCb (transportContext context)
                                               (b :: rest)).
  { eexists. split.
    - unfold chppProcessRxDatagram.
      change (rxHeader_handle (b :: rest)) with (ret (byte_to_Z b)).
      rewrite bind_ret. reflexivity.
    - reflexivity. }
  destruct E as (k & E & Hk).
  split; [reflexivity |]. rewrite E. split; [apply trace_bind_prefix |].
  split.
  - intros f Hf. now apply bind_stops.
  - intros Hno.
    destruct (chppDatagramLenIsOk context (byte_to_Z b) len) as [t r].
    simpl in Hno. subst r. rewrite bind_mkRun_returned, Hk. reflexivity.
Qed.

(** C10.  The handle is read from the first byte of the buffer on every
    call and before the length is looked at: with an empty buffer the run is
    undefined at that read whatever [len] is (zero included).  The length
    check that follows is made on the value that was read: the run starts
    with the validator applied to it and follows its verdict, and the
    validator compares [len] with the minimum of that handle (the size of
    the handle field for NONE, of handle and type for loopback, of the
    header for discovery, [SIZE_MAX] after a log line for any other
    predefined handle, the [minLength] of the service in the registry slot
    of a negotiated handle).  A datagram shorter than that minimum, of
    length zero for instance, is logged with the handle that was read and
    goes to the completion callback. *)
Theorem handle_read_before_length_check (context : ChppAppState) (len : Z) :
  chppProcessRxDatagram context [] len = undefined OutOfBoundsRead
  /\ (forall (b : byte) (rest : buffer),
        rxHeader_handle (b :: rest) = ret (byte_to_Z b))
  /\ forall (buf : buffer) (handle : Z),
       rxHeader_handle buf = ret handle ->
       (exists tail,
          trace (chppProcessRxDatagram context buf len) =
          trace (chppDatagramLenIsOk context handle len) ++ tail)
       /\ (forall f,
             result (chppDatagramLenIsOk context handle len) = Undefined f ->
             chppProcessRxDatagram context buf len =
             mkRun (trace (chppDatagramLenIsOk context handle len))
                   (Undefined f))
       /\ (handle = CHPP_HANDLE_NONE ->
           chppDatagramLenIsOk context handle len =
           length_verdict handle len sizeof_handle)
       /\ (handle = CHPP_HANDLE_LOOPBACK ->
           chppDatagramLenIsOk context handle len =
           length_verdict handle len (sizeof_handle + sizeof_type))
       /\ (handle = CHPP_HANDLE_DISCOVERY ->
           chppDatagramLenIsOk context handle len =
           length_verdict handle len sizeof_ChppAppHeader)
       /\ (handle < CHPP_HANDLE_NEGOTIATED_RANGE_START ->
           handle <> CHPP_HANDLE_NONE ->
           handle <> CHPP_HANDLE_LOOPBACK ->
           handle <> CHPP_HANDLE_DISCOVERY ->
           chppDatagramLenIsOk context handle len =
           mkRun (Log (InvalidPredefinedHandle handle)
                    :: trace (length_verdict handle len SIZE_MAX))
                 (Returned (len >=? SIZE_MAX)))
       /\ (forall s,
             CHPP_HANDLE_NEGOTIATED_RANGE_START <= handle ->
             nth_error (registeredServices context)
               (Z.to_nat (handle - CHPP_HANDLE_NEGOTIATED_RANGE_START))
             = Some (Some s) ->
             chppDatagramLenIsOk context handle len =
             length_verdict handle len (minLength s))
       /\ (forall minLen,
             chppDatagramLenIsOk context handle len =
             length_verdict handle len minLen ->
             (len < minLen ->
              chppProcessRxDatagram context buf len =
              mkRun [Log (DatagramTooShort handle len);
                     AppProcessDoneCb (transportContext context) buf]
                    (Returned tt))
             /\ (minLen <= len ->
                 chppDatagramLenIsOk context handle len = ret true)).
Proof.
  destruct (run_follows_validator context len) as (Hempty & Hfirst).
  split; [exact Hempty |]. split; [intros b rest; apply Hfirst |].
  intros buf handle Hhandle.
  destruct buf as [| b rest]; [discriminate Hhandle |].
  destruct (Hfirst b rest) as (Hb & Hprefix & Hstop & Hno).
  rewrite Hb in Hhandle. injection Hhandle as <-.
  split; [exact Hprefix |]. split; [exact Hstop |].
  split; [intros ->; apply chppDatagramLenIsOk_none |].
  split; [intros ->; apply chppDatagramLenIsOk_loopback |].
  split; [intros ->; apply chppDatagramLenIsOk_discovery |].
  split; [apply chppDatagramLenIsOk_invalid_predefined |].
  split.
  - intros s Hlo Hslot.
    now rewrite chppDatagramLenIsOk_negotiated, Hslot.
  - intros minLen Hval. split; intros Hlen.
    + rewrite Hno; rewrite Hval; unfold length_verdict; simpl;
        rewrite ?Z.geb_leb; settle_tests; reflexivity.
    + rewrite Hval. unfold length_verdict. rewrite Z.geb_leb.
      settle_tests. reflexivity.
Qed.

(** A datagram of length zero in a buffer that does hold a byte: the log
    line of the validator carries the handle that was read. *)
Lemma zero_length_datagram (context : ChppAppState) (buf : buffer) :
  rxHeader_handle buf = ret CHPP_HANDLE_NONE ->
  chppProcessRxDatagram context buf 0 =
  mkRun [Log (DatagramTooShort CHPP_HANDLE_NONE 0);
         AppProcessDoneCb (transportContext context) buf]
        (Returned tt).
Proof.
  intros Hhandle. unfold chppProcessRxDatagram.
  rewrite Hhandle, bind_ret.
  assert (E : chppDatagramLenIsOk context CHPP_HANDLE_NONE 0 =
              mkRun [Log (DatagramTooShort CHPP_HANDLE_NONE 0)]
                    (Returned false))
    by (rewrite chppDatagramLenIsOk_none; reflexivity).
  rewrite E. reflexivity.
Qed.

(** *** The non-handle path and the runs that return *)

(** A datagram for handle NONE that holds its handle byte goes to the
    non-handle dispatcher; its type is never read. *)
Lemma none_handle_dispatched (context : ChppAppState) (buf : buffer)
    (len : Z) :
  rxHeader_handle buf = ret CHPP_HANDLE_NONE ->
  sizeof_handle <= len ->
  chppProcessRxDatagram context buf len =
  mkRun [Dispatch chppDispatchNonHandle context buf len;
         AppProcessDoneCb (transportContext context) buf]
        (Returned tt).
Proof.
  intros Hhandle Hlen. platform_facts OK.
  pose proof (N2Z.is_nonneg (registeredServiceCount context)).
  unfold chppProcessRxDatagram.
  assert (E : chppDatagramLenIsOk context CHPP_HANDLE_NONE len = ret true).
  { rewrite chppDatagramLenIsOk_none. unfold length_verdict.
    settle_tests. reflexivity. }
  rewrite Hhandle, bind_ret, E, bind_ret. settle_tests. reflexivity.
Qed.

Lemma predefined_validator_returns (context : ChppAppState)
    (handle len : Z) :
  handle < CHPP_HANDLE_NEGOTIATED_RANGE_START ->
  exists t ok, chppDatagramLenIsOk context handle len = mkRun t (Returned ok).
Proof.
  intros Hlt.
  destruct (Z.eq_dec handle CHPP_HANDLE_NONE) as [-> | Hn];
    [rewrite chppDatagramLenIsOk_none; unfold length_verdict; eauto |].
  destruct (Z.eq_dec handle CHPP_HANDLE_LOOPBACK) as [-> | Hl];
    [rewrite chppDatagramLenIsOk_loopback; unfold length_verdict; eauto |].
  destruct (Z.eq_dec handle CHPP_HANDLE_DISCOVERY) as [-> | Hd];
    [rewrite chppDatagramLenIsOk_discovery; unfold length_verdict; eauto |].
  rewrite chppDatagramLenIsOk_invalid_predefined by assumption. eauto.
Qed.

(** With the registry as registration leaves it and the three header bytes
    in the buffer, every datagram for a predefined or registered handle whose
    type, on the negotiated path, is one of the four message types is
    processed to the end. *)
Lemma chppProcessRxDatagram_returns (context : ChppAppState) (buf : buffer)
    (len handle type transaction : Z) :
  registry_ok context = true ->
  rxHeader_handle buf = ret handle ->
  rxHeader_type buf = ret type ->
  rxHeader_transaction buf = ret transaction ->
  handle < CHPP_HANDLE_NEGOTIATED_RANGE_START
           + Z.of_N (registeredServiceCount context) ->
  (CHPP_HANDLE_NEGOTIATED_RANGE_START <= handle ->
   type = CHPP_MESSAGE_TYPE_CLIENT_REQUEST
   \/ type = CHPP_MESSAGE_TYPE_CLIENT_NOTIFICATION
   \/ type = CHPP_MESSAGE_TYPE_SERVICE_RESPONSE
   \/ type = CHPP_MESSAGE_TYPE_SERVICE_NOTIFICATION) ->
  result (chppProcessRxDatagram context buf len) = Returned tt.
Proof.
  intros Hok Hhandle Htype Htrans Hhi Hknown. platform_facts OK.
  pose proof (N2Z.is_nonneg (registeredServiceCount context)).
  destruct (Z.ltb_spec handle CHPP_HANDLE_NEGOTIATED_RANGE_START)
    as [Hpre | Hneg].
  - destruct (predefined_validator_returns context handle len Hpre)
      as (t & ok & E).
    unfold chppProcessRxDatagram,
      chppProcessPredefinedClientRequest,
      chppProcessPredefinedServiceResponse,
      chppProcessPredefinedClientNotification,
      chppProcessPredefinedServiceNotification.
    rewrite Hhandle, bind_ret, E, bind_mkRun_returned.
    destruct ok; cbn beta iota; [| reflexivity].
    settle (handle <? CHPP_HANDLE_NEGOTIATED_RANGE_START).
    rewrite Z.geb_leb.
    settle (Z.of_N (registeredServiceCount context)
            + CHPP_HANDLE_NEGOTIATED_RANGE_START <=? handle).
    rewrite Htype, Htrans, !bind_ret.
    repeat match goal with
           | |- context [Z.eqb ?a ?b] => destruct (Z.eqb a b)
           end; reflexivity.
  - destruct (registered_service context handle Hok Hneg) as (s & Hslot);
      [lia |].
    destruct (Z.ltb_spec len (minLength s)) as [Hshort | Hlong].
    + now rewrite (negotiated_too_short context buf len handle s).
    + rewrite (negotiated_long_enough context buf len handle type s)
        by (assumption || lia).
      pose proof (chppServiceOfHandle_slot context handle _ Hneg Hslot) as E.
      unfold chppGetDispatchFunction. rewrite E.
      destruct (Hknown Hneg) as [-> | [-> | [-> | ->]]];
        settle_tests; run_simpl;
        repeat match goal with
               | |- context [match ?d with Some _ => _ | None => _ end] =>
                   destruct d
               end; reflexivity.
Qed.

End Dispatcher.

(** ** Runs on the sample platform *)

(** A Client Request for the registered service at handle 16. *)
Example run_registered_request :
  sample_run sample_context (datagram x10 x00) 6 =
  mkRun [Dispatch (Registered (DispatchFn 100)) sample_context
                  (datagram x10 x00) 6;
         sample_done (datagram x10 x00)]
        (Returned tt).
Proof. reflexivity. Qed.

(** The same datagram announced with five bytes only. *)
Example run_registered_too_short :
  sample_run sample_context (datagram x10 x00) 5 =
  mkRun [Log (DatagramTooShort 16 5); sample_done (datagram x10 x00)]
        (Returned tt).
Proof. reflexivity. Qed.

(** A Client Notification for a service without notification dispatcher. *)
Example run_registered_notification :
  sample_run sample_context (datagram x10 x02) 6 =
  mkRun [Log (UnsupportedRxType 16 2); sample_done (datagram x10 x02)]
        (Returned tt).
Proof. reflexivity. Qed.

(** A type outside the four message types on the discovery handle. *)
Example run_discovery_unknown_type :
  sample_run sample_context (datagram x0f x7f) 6 =
  mkRun [Log (UnknownTypeForPredefined 127 15 6 42);
         EnqueueTxErrorDatagram sample_transport 7;
         sample_done (datagram x0f x7f)]
        (Returned tt).
Proof. reflexivity. Qed.

(** The same type on a registered negotiated handle: the selector ends
    without a value. *)
Example run_registered_unknown_type :
  sample_run sample_context (datagram x10 x7f) 6 =
  mkRun [Log (CannotDispatchUnknownType 127 16);
         EnqueueTxErrorDatagram sample_transport 7]
        (Undefined NoReturnValue).
Proof. reflexivity. Qed.

(** A Service Response on the two predefined handles. *)
Example run_predefined_responses :
  sample_run sample_context (datagram x01 x01) 6 =
  mkRun [sample_done (datagram x01 x01)] (Returned tt)
  /\ sample_run sample_context (datagram x0f x01) 6 =
     mkRun [Dispatch chppDispatchDiscoveryClient sample_context
                     (datagram x0f x01) 6;
            sample_done (datagram x0f x01)]
           (Returned tt).
Proof. split; reflexivity. Qed.

(** The first handle after the registered ones, in an array with free slots
    and in a full array. *)
Example run_first_unregistered_handle :
  sample_run sample_context (datagram x11 x00) 6 = undefined NullDereference
  /\ sample_run full_context (datagram x11 x00) 6 = undefined OutOfBoundsRead.
Proof. split; reflexivity. Qed.

(** ** The theorems at concrete inputs *)

(** The first handle after the registered one, in an array with free
    slots. *)
Lemma out_of_range_handle_undefined_witness :
  registry_ok sample_context = true
  /\ rxHeader_handle (datagram x11 x00) = ret 17
  /\ 16 + Z.of_N (registeredServiceCount sample_context) <= 17
  /\ exists f, sample_run sample_context (datagram x11 x00) 6 = undefined f.
Proof.
  repeat split; [simpl; lia |].
  apply (out_of_range_handle_undefined (P := sample_platform) sample_context
           (datagram x11 x00) 6 17); [reflexivity | reflexivity | simpl; lia].
Defined.

(** A request that is dispatched to the registered service. *)
Lemma completion_callback_exactly_once_witness :
  result (sample_run sample_context (datagram x10 x00) 6) = Returned tt
  /\ done_count (trace (sample_run sample_context (datagram x10 x00) 6))
     = 1%nat.
Proof.
  split; [reflexivity |].
  apply (completion_callback_exactly_once (P := sample_platform)
           sample_context (datagram x10 x00) 6). reflexivity.
Defined.

(** The same datagram: the completion callback is not called. *)
Lemma completion_callback_missed_witness :
  registry_ok sample_context = true
  /\ rxHeader_handle (datagram x11 x00) = ret 17
  /\ 16 + Z.of_N (registeredServiceCount sample_context) <= 17
  /\ done_count (trace (sample_run sample_context (datagram x11 x00) 6))
     = 0%nat
  /\ result (sample_run sample_context (datagram x11 x00) 6) <> Returned tt.
Proof.
  split; [reflexivity |]. split; [reflexivity |]. split; [simpl; lia |].
  apply (completion_callback_missed (P := sample_platform) sample_context
           (datagram x11 x00) 6 17);
    [reflexivity | reflexivity | simpl; lia].
Defined.

(** A loopback datagram of length zero in a buffer of one byte, and a call
    with an empty buffer. *)
Lemma handle_read_before_length_check_witness :
  sample_run sample_context [] 0 = undefined OutOfBoundsRead
  /\ rxHeader_handle [x01]%byte
     = ret (@CHPP_HANDLE_LOOPBACK sample_platform)
  /\ @chppDatagramLenIsOk sample_platform sample_context 1 0
     = mkRun [Log (DatagramTooShort 1 0)] (Returned false)
  /\ sample_run sample_context [x01]%byte 0 =
     mkRun [Log (DatagramTooShort 1 0); sample_done [x01]%byte]
           (Returned tt).
Proof.
  destruct (handle_read_before_length_check (P := sample_platform)
              (OK := sample_platform_ok) sample_context 0)
    as (Hempty & Hfirst & Hrun).
  destruct (Hrun [x01]%byte 1 (Hfirst x01 []))
    as (_ & _ & _ & Hloopback & _ & _ & _ & Hverdict).
  specialize (Hloopback eq_refl).
  destruct (Hverdict _ Hloopback) as (Hshort & _).
  split; [exact Hempty |]. split; [reflexivity |].
  split; [rewrite Hloopback; reflexivity |].
  apply Hshort. unfold sizeof_handle, sizeof_type; lia.
Defined.

(** The first handle after the registered one, in a full array. *)
Lemma lookup_before_range_check_witness :
  registry_ok full_context = true
  /\ 16 + Z.of_N (registeredServiceCount full_context) <= 17
  /\ ((@chppServiceOfHandle sample_platform full_context 17
       = undefined OutOfBoundsRead
       /\ @chppDatagramLenIsOk sample_platform full_context 17 6
          = undefined OutOfBoundsRead)
      \/ (@chppServiceOfHandle sample_platform full_context 17 = ret None
          /\ @chppDatagramLenIsOk sample_platform full_context 17 6
             = undefined NullDereference)).
Proof.
  split; [reflexivity | split; [simpl; lia |]].
  apply (lookup_before_range_check (P := sample_platform) full_context 17 6);
    [reflexivity | simpl; lia].
Defined.

(** C4, as the spec has it, fails on handle NONE: a datagram of six bytes
    with handle 0 and the type 127, which is none of the four message types,
    passes the length check, is handed to [chppDispatchNonHandle] and no
    transport error is enqueued. *)
Lemma unknown_type_on_none_handle_dispatched :
  rxHeader_handle (datagram x00 x7f) = ret (@CHPP_HANDLE_NONE sample_platform)
  /\ rxHeader_type (datagram x00 x7f) = ret 127
  /\ ~ In 127 [@CHPP_MESSAGE_TYPE_CLIENT_REQUEST sample_platform;
               @CHPP_MESSAGE_TYPE_CLIENT_NOTIFICATION sample_platform;
               @CHPP_MESSAGE_TYPE_SERVICE_RESPONSE sample_platform;
               @CHPP_MESSAGE_TYPE_SERVICE_NOTIFICATION sample_platform]
  /\ @chppDatagramLenIsOk sample_platform sample_context 0 6 = ret true
  /\ sample_run sample_context (datagram x00 x7f) 6 =
     mkRun [Dispatch chppDispatchNonHandle sample_context
                     (datagram x00 x7f) 6;
            sample_done (datagram x00 x7f)]
           (Returned tt)
  /\ enqueue_count (trace (sample_run sample_context (datagram x00 x7f) 6))
     = 0%nat
  /\ dispatches (trace (sample_run sample_context (datagram x00 x7f) 6))
     <> [].
Proof.
  repeat split; try reflexivity.
  - simpl. intros [H | [H | [H | [H | []]]]]; discriminate H.
  - discriminate.
Qed.

(** The type 127 on the discovery handle. *)
Lemma unknown_type_reported_witness :
  result (@chppDatagramLenIsOk sample_platform sample_context 15 6)
  = Returned true
  /\ enqueue_count (trace (sample_run sample_context (datagram x0f x7f) 6))
     = 1%nat
  /\ result (sample_run sample_context (datagram x0f x7f) 6) = Returned tt
  /\ dispatches (trace (sample_run sample_context (datagram x0f x7f) 6)) = [].
Proof.
  split; [reflexivity |].
  destruct (unknown_type_reported (P := sample_platform)
              (OK := sample_platform_ok) sample_context (datagram x0f x7f)
              6 15 127 42)
    as (_ & Hcount & _ & Hpre);
    try reflexivity; try discriminate; try (simpl; lia).
  split; [exact Hcount |]. apply Hpre. simpl; lia.
Defined.

(** A loopback request announced with six bytes and with one byte. *)
Lemma loopback_client_request_witness :
  rxHeader_handle (datagram x01 x00)
  = ret (@CHPP_HANDLE_LOOPBACK sample_platform)
  /\ sample_run sample_context (datagram x01 x00) 6 =
     mkRun [Dispatch chppDispatchLoopbackClientRequest sample_context
                     (datagram x01 x00) 6;
            sample_done (datagram x01 x00)]
           (Returned tt)
  /\ dispatches (trace (sample_run sample_context (datagram x01 x00) 1)) = [].
Proof.
  split; [reflexivity |].
  destruct (loopback_client_request (P := sample_platform)
              (OK := sample_platform_ok) sample_context (datagram x01 x00) 6
              eq_refl) as (Hlong & _).
  destruct (loopback_client_request (P := sample_platform)
              (OK := sample_platform_ok) sample_context (datagram x01 x00) 1
              eq_refl) as (_ & Hshort).
  split.
  - apply Hlong; [unfold sizeof_handle, sizeof_type; lia | reflexivity].
  - apply Hshort. unfold sizeof_handle, sizeof_type; lia.
Defined.

(** A request for the registered service announced with six bytes and with
    five. *)
Lemma negotiated_client_request_witness :
  registry_ok sample_context = true
  /\ sample_run sample_context (datagram x10 x00) 6 =
     mkRun [Dispatch (Registered (DispatchFn 100)) sample_context
                     (datagram x10 x00) 6;
            sample_done (datagram x10 x00)]
           (Returned tt)
  /\ dispatches (trace (sample_run sample_context (datagram x10 x00) 5)) = [].
Proof.
  split; [reflexivity |].
  destruct (negotiated_client_request (P := sample_platform)
              (OK := sample_platform_ok) sample_context (datagram x10 x00) 6
              16 eq_refl eq_refl)
    as (s & Hslot & Hlong & _); [simpl; lia | simpl; lia |].
  destruct (negotiated_client_request (P := sample_platform)
              (OK := sample_platform_ok) sample_context (datagram x10 x00) 5
              16 eq_refl eq_refl)
    as (s' & Hslot' & _ & Hshort); [simpl; lia | simpl; lia |].
  simpl in Hslot, Hslot'.
  injection Hslot as <-. injection Hslot' as <-.
  split.
  - apply Hlong; [simpl; lia | reflexivity | reflexivity].
  - apply Hshort. simpl; lia.
Defined.

(** A Service Notification for the registered service. *)
Lemma negotiated_service_message_unsupported_witness :
  registry_ok sample_context = true
  /\ sample_run sample_context (datagram x10 x03) 6 =
     mkRun [Log (UnsupportedRxType 16 3); sample_done (datagram x10 x03)]
           (Returned tt).
Proof.
  split; [reflexivity |].
  destruct (negotiated_service_message_unsupported (P := sample_platform)
              (OK := sample_platform_ok) sample_context (datagram x10 x03) 6
              16 3 eq_refl eq_refl)
    as (s & Hslot & Hlong);
    [simpl; lia | simpl; lia | reflexivity | right; reflexivity |].
  simpl in Hslot. injection Hslot as <-.
  apply Hlong. simpl; lia.
Defined.

(** A request for handle 5, which is no predefined service. *)
Lemma invalid_predefined_handle_dropped_witness :
  rxHeader_handle (datagram x05 x00) = ret 5
  /\ sample_run sample_context (datagram x05 x00) 6 =
     mkRun [Log (InvalidPredefinedHandle 5);
            Log (DatagramTooShort 5 6);
            sample_done (datagram x05 x00)]
           (Returned tt).
Proof.
  split; [reflexivity |].
  apply (invalid_predefined_handle_dropped (P := sample_platform)
           sample_context (datagram x05 x00) 6 5);
    try reflexivity; try discriminate; simpl; lia.
Defined.

(** ** The UUID formatter *)

Lemma byte_of_hex_digits (b : byte) :
  Uuid.byte_of_hex (Uuid.hex_hi b) (Uuid.hex_lo b) = Some b.
Proof. destruct b; reflexivity. Qed.

Lemma hex_digits_lower (b : byte) :
  Uuid.is_lower_hex (Uuid.hex_hi b) = true
  /\ Uuid.is_lower_hex (Uuid.hex_lo b) = true.
Proof. destruct b; split; reflexivity. Qed.

Lemma sixteen_bytes (uuid : list byte) :
  List.length uuid = 16%nat ->
  exists b0 b1 b2 b3 b4 b5 b6 b7 b8 b9 b10 b11 b12 b13 b14 b15,
    uuid = [b0; b1; b2; b3; b4; b5; b6; b7;
            b8; b9; b10; b11; b12; b13; b14; b15].
Proof.
  intros H.
  do 16 (destruct uuid as [| ? uuid]; [discriminate H |]).
  destruct uuid; [| discriminate H].
  repeat eexists.
Qed.

Lemma sscanf_sprintf_uuid (uuid : list byte) :
  List.length uuid = 16%nat ->
  exists s,
    Uuid.chppUuidToStr uuid = Some s /\ Uuid.chppStrToUuid s = Some uuid.
Proof.
  intros H. destruct (sixteen_bytes uuid H)
    as (b0 & b1 & b2 & b3 & b4 & b5 & b6 & b7 & b8 & b9 & b10 & b11 & b12
        & b13 & b14 & b15 & ->).
  eexists. split; [reflexivity |].
  unfold Uuid.chppStrToUuid, Uuid.uuid_format.
  cbn [Uuid.sscanf Uuid.fmt_02x append].
  now rewrite !byte_of_hex_digits.
Qed.

(** C9.  For every input of sixteen bytes [chppUuidToStr] writes the dashed
    form: the bytes 0 to 3, 4 and 5, 6 and 7, 8 and 9 and 10 to 15 in input
    order, each as two lowercase hexadecimal digits, in the shape
    [xxxxxxxx-xxxx-xxxx-xxxx-xxxxxxxxxxxx] of 36 characters.  The bytes are
    read back from the string, so two inputs with the same string are the
    same. *)
Theorem chppUuidToStr_lossless (uuid : list byte) :
  List.length uuid = 16%nat ->
  exists s,
    Uuid.chppUuidToStr uuid = Some s
    /\ s = Uuid.dashed uuid
    /\ Uuid.matches_template Uuid.uuid_template s = true
    /\ String.length s = 36%nat
    /\ Uuid.chppStrToUuid s = Some uuid
    /\ forall uuid',
         List.length uuid' = 16%nat ->
         Uuid.chppUuidToStr uuid' = Some s -> uuid' = uuid.
Proof.
  intros H. destruct (sscanf_sprintf_uuid uuid H) as (s & Hs & Hback).
  exists s. split; [exact Hs |].
  assert (Hdashed : s = Uuid.dashed uuid).
  { destruct (sixteen_bytes uuid H)
      as (b0 & b1 & b2 & b3 & b4 & b5 & b6 & b7 & b8 & b9 & b10 & b11 & b12
          & b13 & b14 & b15 & ->).
    injection Hs as <-. reflexivity. }
  split; [exact Hdashed |]. split; [| split; [| split; [exact Hback |]]].
  - rewrite Hdashed.
    destruct (sixteen_bytes uuid H)
      as (b0 & b1 & b2 & b3 & b4 & b5 & b6 & b7 & b8 & b9 & b10 & b11 & b12
          & b13 & b14 & b15 & ->).
    unfold Uuid.dashed, Uuid.uuid_template.
    cbn [firstn skipn Uuid.hex_of Uuid.fmt_02x append Uuid.matches_template].
    repeat match goal with
           | |- context [Uuid.is_lower_hex (Uuid.hex_hi ?b)] =>
               rewrite (proj1 (hex_digits_lower b))
           | |- context [Uuid.is_lower_hex (Uuid.hex_lo ?b)] =>
               rewrite (proj2 (hex_digits_lower b))
           end.
    reflexivity.
  - rewrite Hdashed.
    destruct (sixteen_bytes uuid H)
      as (b0 & b1 & b2 & b3 & b4 & b5 & b6 & b7 & b8 & b9 & b10 & b11 & b12
          & b13 & b14 & b15 & ->).
    reflexivity.
  - intros uuid' H' Hs'.
    destruct (sscanf_sprintf_uuid uuid' H') as (s' & Hs'' & Hback').
    rewrite Hs' in Hs''. injection Hs'' as <-.
    rewrite Hback in Hback'. now injection Hback'.
Qed.

(** The formatter on a known value. *)
Example chppUuidToStr_sample :
  Uuid.chppUuidToStr Uuid.sample_uuid
  = Some "12345678-9abc-def0-0123-456789abcdef"%string.
Proof. reflexivity. Qed.

(** An array shorter than sixteen bytes is read past its end. *)
Example chppUuidToStr_short_array :
  Uuid.chppUuidToStr (firstn 15 Uuid.sample_uuid) = None.
Proof. reflexivity. Qed.

Lemma chppUuidToStr_lossless_witness :
  List.length Uuid.sample_uuid = 16%nat
  /\ exists s,
       Uuid.chppUuidToStr Uuid.sample_uuid = Some s
       /\ s = "12345678-9abc-def0-0123-456789abcdef"%string
       /\ Uuid.chppStrToUuid s = Some Uuid.sample_uuid.
Proof.
  split; [reflexivity |].
  destruct (chppUuidToStr_lossless Uuid.sample_uuid eq_refl)
    as (s & Hs & Hdashed & _ & _ & Hback & _).
  exists s. repeat split; assumption.
Defined.

(** * More of the dispatcher *)

(** Takes a run of [chppProcessRxDatagram] apart: the reads of the header,
    the verdict of the validator, every test and every registry slot. *)
Ltac unfold_routing :=
  unfold chppProcessRxDatagram, chppProcessPredefinedClientRequest,
    chppProcessPredefinedServiceResponse,
    chppProcessPredefinedClientNotification,
    chppProcessPredefinedServiceNotification, chppGetDispatchFunction,
    chppServiceOfHandle, deref, rxHeader_handle, rxHeader_type,
    rxHeader_transaction;
  cbv zeta.

(** Turns the recorded outcomes of the tests into arithmetic facts. *)
Ltac tests_to_facts :=
  repeat match goal with
         | H : (_ >=? _) = _ |- _ => rewrite Z.geb_leb in H
         | H : (_ =? _) = true |- _ => apply Z.eqb_eq in H
         | H : (_ =? _) = false |- _ => apply Z.eqb_neq in H
         | H : (_ <? _) = true |- _ => apply Z.ltb_lt in H
         | H : (_ <? _) = false |- _ => apply Z.ltb_ge in H
         | H : (_ <=? _) = true |- _ => apply Z.leb_le in H
         | H : (_ <=? _) = false |- _ => apply Z.leb_gt in H
         end.

(** Finds out which event of a concrete trace a membership refers to. *)
Ltac which_event H :=
  simpl in H;
  repeat match type of H with
         | _ \/ _ => destruct H as [H | H]
         end;
  try contradiction; try discriminate H.

Ltac split_run :=
  repeat first
    [ progress rewrite ?bind_ret, ?bind_undefined, ?bind_mkRun_returned,
        ?bind_mkRun_undefined
    | match goal with
      | |- context [load ?b ?i] =>
          let z := fresh "z" in
          destruct (load_cases b i) as [-> | (z & ->)]
      | |- context [if ?c then _ else _] => destruct c eqn:?
      | |- context [match nth_error ?l ?i with Some _ => _ | None => _ end] =>
          destruct (nth_error l i) as [[? |] |] eqn:?
      | |- context [match ?d with Some _ => _ | None => _ end] =>
          destruct d eqn:?
      end ].

Ltac count_events :=
  unfold effect_count, dispatches, enqueue_count, done_count; simpl;
  try lia.

Section Coverage.

Context {P : ChppPlatform} {OK : ChppPlatformOk P}.

Lemma effect_count_app (t t' : list Event) :
  effect_count (t ++ t') = (effect_count t + effect_count t')%nat.
Proof.
  unfold effect_count.
  rewrite dispatches_app, enqueue_count_app, List.length_app. lia.
Qed.

Lemma validator_effect_free (context : ChppAppState) (handle len : Z) :
  effect_count (trace (chppDatagramLenIsOk context handle len)) = 0%nat.
Proof.
  destruct (only_logs_enqueue_count _
              (chppDatagramLenIsOk_only_logs context handle len)) as (E & D).
  unfold effect_count. now rewrite E, D.
Qed.

(** The events a run records, up to the point where it returns or leaves
    defined C, hold at most one call that is a handler or dispatcher
    invocation or a transport error. *)
Lemma effect_count_recorded (context : ChppAppState) (buf : buffer)
    (len : Z) :
  (effect_count (trace (chppProcessRxDatagram context buf len)) <= 1)%nat.
Proof.
  unfold_routing.
  destruct (load_cases buf 0) as [-> | (handle & ->)]; [count_events |].
  rewrite bind_ret.
  pose proof (validator_effect_free context handle len) as Hv.
  destruct (chppDatagramLenIsOk context handle len) as [t [[|] | f]];
    simpl in Hv; rewrite ?bind_mkRun_returned, ?bind_mkRun_undefined;
    cbn beta iota; simpl trace; rewrite ?effect_count_app, ?Hv;
    [| count_events | count_events].
  split_run; count_events.
Qed.

Lemma in_after_logs (e : Event) (t t' : list Event) :
  forallb is_log t = true -> is_log e = false -> In e (t ++ t') -> In e t'.
Proof.
  intros Hlogs He Hin. apply in_app_or in Hin. destruct Hin as [Hin |]; auto.
  rewrite forallb_forall in Hlogs. apply Hlogs in Hin. congruence.
Qed.

(** Every handler or dispatcher invocation a run records, up to the point
    where it returns or leaves defined C, gets the context, the buffer and
    the length of the call, comes after the validator has accepted the
    length for the handle of the datagram, and is the one the handle and the
    type select. *)
Lemma dispatch_recorded_is_justified (context : ChppAppState) (buf : buffer)
    (len : Z) (h : Handler) (c : ChppAppState) (b : buffer) (l : Z) :
  In (Dispatch h c b l) (trace (chppProcessRxDatagram context buf len)) ->
  c = context /\ b = buf /\ l = len
  /\ exists handle,
       rxHeader_handle buf = ret handle
       /\ result (chppDatagramLenIsOk context handle len) = Returned true
       /\ match h with
          | chppDispatchNonHandle => handle = CHPP_HANDLE_NONE
          | chppDispatchLoopbackClientRequest =>
              handle = CHPP_HANDLE_LOOPBACK
              /\ rxHeader_type buf = ret CHPP_MESSAGE_TYPE_CLIENT_REQUEST
          | chppDispatchDiscoveryClientRequest =>
              handle = CHPP_HANDLE_DISCOVERY
              /\ rxHeader_type buf = ret CHPP_MESSAGE_TYPE_CLIENT_REQUEST
          | chppDispatchDiscoveryClient =>
              handle = CHPP_HANDLE_DISCOVERY
              /\ rxHeader_type buf = ret CHPP_MESSAGE_TYPE_SERVICE_RESPONSE
          | Registered f =>
              CHPP_HANDLE_NEGOTIATED_RANGE_START <= handle
              /\ handle < CHPP_HANDLE_NEGOTIATED_RANGE_START
                          + Z.of_N (registeredServiceCount context)
              /\ exists s,
                   nth_error (registeredServices context)
                     (Z.to_nat (handle - CHPP_HANDLE_NEGOTIATED_RANGE_START))
                   = Some (Some s)
                   /\ (rxHeader_type buf
                       = ret CHPP_MESSAGE_TYPE_CLIENT_REQUEST
                       /\ requestDispatchFunctionPtr s = Some f
                       \/ rxHeader_type buf
                          = ret CHPP_MESSAGE_TYPE_CLIENT_NOTIFICATION
                          /\ notificationDispatchFunctionPtr s = Some f)
          end.
Proof.
  unfold_routing.
  destruct (load_cases buf 0) as [-> | (handle & ->)]; [intros [] |].
  rewrite bind_ret.
  pose proof (chppDatagramLenIsOk_only_logs context handle len) as Hlogs.
  unfold only_logs in Hlogs.
  destruct (chppDatagramLenIsOk context handle len) as [t [[|] | f]] eqn:Hval;
    simpl in Hlogs; rewrite ?bind_mkRun_returned, ?bind_mkRun_undefined;
    cbn beta iota; simpl trace;
    [| intros H; apply in_after_logs in H; auto; which_event H
     | intros H; exfalso; rewrite forallb_forall in Hlogs;
       apply Hlogs in H; discriminate H].
  split_run; intros H; apply in_after_logs in H; auto; which_event H;
    injection H as <- <- <- <-; tests_to_facts;
    (split; [reflexivity | split; [reflexivity | split; [reflexivity |]]]);
    exists handle;
    (split; [reflexivity | split; [now rewrite Hval |]]).
  all: try (split; congruence).
  all: try assumption.
  all: split; [lia | split; [lia |]]; eexists; (split; [eassumption |]);
    first [ left; split; [congruence | assumption]
          | right; split; [congruence | assumption] ].
Qed.

(** X1.  A run of [chppProcessRxDatagram] that returns has handed the
    datagram on at most once: its events hold at most one call that is a
    handler or dispatcher invocation or a transport error, never one of each
    and never two of a kind. *)
Theorem at_most_one_effect (context : ChppAppState) (buf : buffer)
    (len : Z) :
  result (chppProcessRxDatagram context buf len) = Returned tt ->
  (effect_count (trace (chppProcessRxDatagram context buf len)) <= 1)%nat.
Proof. intros _. apply effect_count_recorded. Qed.

(** X2.  In a run of [chppProcessRxDatagram] that returns, every handler or
    dispatcher invocation gets the context, the buffer and the length of the
    call, comes after the validator has accepted the length for the handle
    of the datagram, and is the one the handle and the type select: the
    non-handle dispatcher for handle NONE, the loopback handler for a Client
    Request to the loopback handle, the two discovery handlers for a Client
    Request and a Service Response to the discovery handle, and a registered
    function only as the request or notification pointer of the service
    stored at the offset of a handle inside the registered range. *)
Theorem dispatch_is_justified (context : ChppAppState) (buf : buffer)
    (len : Z) (h : Handler) (c : ChppAppState) (b : buffer) (l : Z) :
  result (chppProcessRxDatagram context buf len) = Returned tt ->
  In (Dispatch h c b l) (trace (chppProcessRxDatagram context buf len)) ->
  c = context /\ b = buf /\ l = len
  /\ exists handle,
       rxHeader_handle buf = ret handle
       /\ result (chppDatagramLenIsOk context handle len) = Returned true
       /\ match h with
          | chppDispatchNonHandle => handle = CHPP_HANDLE_NONE
          | chppDispatchLoopbackClientRequest =>
              handle = CHPP_HANDLE_LOOPBACK
              /\ rxHeader_type buf = ret CHPP_MESSAGE_TYPE_CLIENT_REQUEST
          | chppDispatchDiscoveryClientRequest =>
              handle = CHPP_HANDLE_DISCOVERY
              /\ rxHeader_type buf = ret CHPP_MESSAGE_TYPE_CLIENT_REQUEST
          | chppDispatchDiscoveryClient =>
              handle = CHPP_HANDLE_DISCOVERY
              /\ rxHeader_type buf = ret CHPP_MESSAGE_TYPE_SERVICE_RESPONSE
          | Registered f =>
              CHPP_HANDLE_NEGOTIATED_RANGE_START <= handle
              /\ handle < CHPP_HANDLE_NEGOTIATED_RANGE_START
                          + Z.of_N (registeredServiceCount context)
              /\ exists s,
                   nth_error (registeredServices context)
                     (Z.to_nat (handle - CHPP_HANDLE_NEGOTIATED_RANGE_START))
                   = Some (Some s)
                   /\ (rxHeader_type buf
                       = ret CHPP_MESSAGE_TYPE_CLIENT_REQUEST
                       /\ requestDispatchFunctionPtr s = Some f
                       \/ rxHeader_type buf
                          = ret CHPP_MESSAGE_TYPE_CLIENT_NOTIFICATION
                          /\ notificationDispatchFunctionPtr s = Some f)
          end.
Proof. intros _. apply dispatch_recorded_is_justified. Qed.

(** X3.  A transport error is enqueued only with the transport context of
    the application context and the application-layer code, and only for a
    datagram that passed the validator, whose handle is not NONE and lies
    below the end of the registered range, and whose type is none of the
    four message types. *)
Theorem enqueue_only_for_unknown_type (context : ChppAppState)
    (buf : buffer) (len : Z) (transport : ChppTransportState) (code : Z) :
  In (EnqueueTxErrorDatagram transport code)
     (trace (chppProcessRxDatagram context buf len)) ->
  transport = transportContext context
  /\ code = CHPP_TRANSPORT_ERROR_APPLAYER
  /\ exists handle type,
       rxHeader_handle buf = ret handle
       /\ rxHeader_type buf = ret type
       /\ is_message_type type = false
       /\ handle <> CHPP_HANDLE_NONE
       /\ handle < CHPP_HANDLE_NEGOTIATED_RANGE_START
                   + Z.of_N (registeredServiceCount context)
       /\ result (chppDatagramLenIsOk context handle len) = Returned true.
Proof.
  unfold_routing.
  destruct (load_cases buf 0) as [-> | (handle & ->)]; [intros [] |].
  rewrite bind_ret.
  pose proof (chppDatagramLenIsOk_only_logs context handle len) as Hlogs.
  unfold only_logs in Hlogs.
  destruct (chppDatagramLenIsOk context handle len) as [t [[|] | f]] eqn:Hval;
    simpl in Hlogs; rewrite ?bind_mkRun_returned, ?bind_mkRun_undefined;
    cbn beta iota; simpl trace;
    [| intros H; apply in_after_logs in H; auto; which_event H
     | intros H; exfalso; rewrite forallb_forall in Hlogs;
       apply Hlogs in H; discriminate H].
  split_run; intros H; apply in_after_logs in H; auto; which_event H;
    injection H as <- <-; tests_to_facts;
    (split; [reflexivity | split; [reflexivity |]]);
    exists handle; eexists;
    (split; [reflexivity | split; [reflexivity |]]);
    (split; [| split; [assumption | split; [lia | now rewrite Hval]]]);
    unfold is_message_type;
    repeat (rewrite (proj2 (Z.eqb_neq _ _)) by assumption); reflexivity.
Qed.

(** *** The predefined router *)

(** X4.  The discovery handle: a datagram of at least the size of the
    header goes to the discovery service handler when it is a Client Request
    and to the discovery client handler when it is a Service Response; a
    shorter one is logged as too short and reaches neither. *)
Theorem discovery_routing (context : ChppAppState) (buf : buffer) (len : Z) :
  rxHeader_handle buf = ret CHPP_HANDLE_DISCOVERY ->
  (sizeof_ChppAppHeader <= len ->
   rxHeader_type buf = ret CHPP_MESSAGE_TYPE_CLIENT_REQUEST ->
   chppProcessRxDatagram context buf len =
   mkRun [Dispatch chppDispatchDiscoveryClientRequest context buf len;
          AppProcessDoneCb (transportContext context) buf]
         (Returned tt))
  /\
  (sizeof_ChppAppHeader <= len ->
   rxHeader_type buf = ret CHPP_MESSAGE_TYPE_SERVICE_RESPONSE ->
   chppProcessRxDatagram context buf len =
   mkRun [Dispatch chppDispatchDiscoveryClient context buf len;
          AppProcessDoneCb (transportContext context) buf]
         (Returned tt))
  /\
  (len < sizeof_ChppAppHeader ->
   chppProcessRxDatagram context buf len =
   mkRun [Log (DatagramTooShort CHPP_HANDLE_DISCOVERY len);
          AppProcessDoneCb (transportContext context) buf]
         (Returned tt)).
Proof.
  intros Hhandle. platform_facts OK.
  pose proof (N2Z.is_nonneg (registeredServiceCount context)).
  assert (Hlen : forall k : bool -> Run unit,
             (ok <- chppDatagramLenIsOk context CHPP_HANDLE_DISCOVERY len ;;
              k ok)
             = (ok <- length_verdict CHPP_HANDLE_DISCOVERY len
                                     sizeof_ChppAppHeader ;; k ok))
    by (intros k; now rewrite chppDatagramLenIsOk_discovery).
  unfold chppProcessRxDatagram, chppProcessPredefinedClientRequest,
    chppProcessPredefinedServiceResponse.
  rewrite Hhandle, !bind_ret, Hlen. unfold length_verdict.
  repeat split; intros Hl; try intros Htype; try rewrite Htype;
    settle_tests; run_simpl; settle_tests; reflexivity.
Qed.

(** X5.  A Service Response to the loopback handle that is long enough is
    dropped in silence: the run consists of the completion callback alone,
    without a log line. *)
Theorem loopback_service_response_ignored (context : ChppAppState)
    (buf : buffer) (len : Z) :
  rxHeader_handle buf = ret CHPP_HANDLE_LOOPBACK ->
  rxHeader_type buf = ret CHPP_MESSAGE_TYPE_SERVICE_RESPONSE ->
  sizeof_handle + sizeof_type <= len ->
  chppProcessRxDatagram context buf len =
  mkRun [AppProcessDoneCb (transportContext context) buf] (Returned tt).
Proof.
  intros Hhandle Htype Hlen. platform_facts OK.
  pose proof (N2Z.is_nonneg (registeredServiceCount context)).
  assert (Hval : forall k : bool -> Run unit,
             (ok <- chppDatagramLenIsOk context CHPP_HANDLE_LOOPBACK len ;;
              k ok)
             = (ok <- length_verdict CHPP_HANDLE_LOOPBACK len
                                     (sizeof_handle + sizeof_type) ;; k ok))
    by (intros k; now rewrite chppDatagramLenIsOk_loopback).
  unfold chppProcessRxDatagram, chppProcessPredefinedServiceResponse.
  rewrite Hhandle, !bind_ret, Hval, Htype. unfold length_verdict.
  settle_tests. run_simpl. settle_tests. reflexivity.
Qed.

(** X6.  A Client Notification or a Service Notification to a predefined
    handle other than NONE that passed the validator is only logged as not
    supported; no handler sees it. *)
Theorem predefined_notifications_unsupported (context : ChppAppState)
    (buf : buffer) (len handle : Z) (t : list Event) :
  rxHeader_handle buf = ret handle ->
  handle < CHPP_HANDLE_NEGOTIATED_RANGE_START ->
  handle <> CHPP_HANDLE_NONE ->
  chppDatagramLenIsOk context handle len = mkRun t (Returned true) ->
  (rxHeader_type buf = ret CHPP_MESSAGE_TYPE_CLIENT_NOTIFICATION ->
   chppProcessRxDatagram context buf len =
   mkRun (t ++ [Log (NoClientNotifications handle);
                AppProcessDoneCb (transportContext context) buf])
         (Returned tt))
  /\
  (rxHeader_type buf = ret CHPP_MESSAGE_TYPE_SERVICE_NOTIFICATION ->
   chppProcessRxDatagram context buf len =
   mkRun (t ++ [Log (NoServiceNotifications handle);
                AppProcessDoneCb (transportContext context) buf])
         (Returned tt)).
Proof.
  intros Hhandle Hlt Hnone Hval. platform_facts OK.
  pose proof (N2Z.is_nonneg (registeredServiceCount context)).
  destruct (predefined_notifications context buf len handle Hhandle)
    as (Ecn & Esn).
  unfold chppProcessRxDatagram.
  rewrite Hhandle, bind_ret, Hval, bind_mkRun_returned, Ecn, Esn.
  cbn beta iota. settle_tests.
  split; intros Htype; rewrite Htype, bind_ret; settle_tests; reflexivity.
Qed.

(** X7.  Handle NONE: with a length of at least the handle field the
    datagram goes to the non-handle dispatcher, whatever follows the handle
    byte (the type is not read, so a buffer of one byte is enough); with a
    smaller length it is logged as too short. *)
Theorem none_handle_routing (context : ChppAppState) (buf : buffer)
    (len : Z) :
  rxHeader_handle buf = ret CHPP_HANDLE_NONE ->
  (sizeof_handle <= len ->
   chppProcessRxDatagram context buf len =
   mkRun [Dispatch chppDispatchNonHandle context buf len;
          AppProcessDoneCb (transportContext context) buf]
         (Returned tt))
  /\
  (len < sizeof_handle ->
   chppProcessRxDatagram context buf len =
   mkRun [Log (DatagramTooShort CHPP_HANDLE_NONE len);
          AppProcessDoneCb (transportContext context) buf]
         (Returned tt)).
Proof.
  intros Hhandle. split; intros Hlen.
  - now apply none_handle_dispatched.
  - unfold chppProcessRxDatagram.
    assert (E : chppDatagramLenIsOk context CHPP_HANDLE_NONE len =
                mkRun [Log (DatagramTooShort CHPP_HANDLE_NONE len)]
                      (Returned false)).
    { rewrite chppDatagramLenIsOk_none. unfold length_verdict.
      settle_tests. reflexivity. }
    rewrite Hhandle, bind_ret, E. reflexivity.
Qed.

(** *** The negotiated router *)

(** X8.  A Client Notification of sufficient length for a registered
    negotiated handle goes to the notification dispatch function of the
    service, and is logged as an unsupported Rx message type when the
    service has none. *)
Theorem negotiated_client_notification (context : ChppAppState)
    (buf : buffer) (len handle : Z) (s : ChppService) :
  rxHeader_handle buf = ret handle ->
  CHPP_HANDLE_NEGOTIATED_RANGE_START <= handle ->
  handle < CHPP_HANDLE_NEGOTIATED_RANGE_START
           + Z.of_N (registeredServiceCount context) ->
  nth_error (registeredServices context)
            (Z.to_nat (handle - CHPP_HANDLE_NEGOTIATED_RANGE_START))
  = Some (Some s) ->
  minLength s <= len ->
  rxHeader_type buf = ret CHPP_MESSAGE_TYPE_CLIENT_NOTIFICATION ->
  chppProcessRxDatagram context buf len =
  mkRun [match notificationDispatchFunctionPtr s with
         | Some f => Dispatch (Registered f) context buf len
         | None =>
             Log (UnsupportedRxType handle
                                    CHPP_MESSAGE_TYPE_CLIENT_NOTIFICATION)
         end;
         AppProcessDoneCb (transportContext context) buf]
        (Returned tt).
Proof.
  intros Hhandle Hlo Hhi Hslot Hlen Htype. platform_facts OK.
  rewrite (negotiated_long_enough context buf len handle _ s
             Hhandle Hlo Hhi Hslot Hlen Htype).
  unfold chppGetDispatchFunction. settle_tests.
  rewrite (chppServiceOfHandle_slot context handle _ Hlo Hslot).
  run_simpl. destruct (notificationDispatchFunctionPtr s); reflexivity.
Qed.

(** X9.  A datagram of sufficient length for a registered negotiated handle
    whose type is none of the four message types: the selector logs,
    enqueues the transport error and ends without a return value, so the run
    is undefined from there on and the completion callback is not among its
    events. *)
Theorem negotiated_unknown_type_undefined (context : ChppAppState)
    (buf : buffer) (len handle type : Z) (s : ChppService) :
  rxHeader_handle buf = ret handle ->
  CHPP_HANDLE_NEGOTIATED_RANGE_START <= handle ->
  handle < CHPP_HANDLE_NEGOTIATED_RANGE_START
           + Z.of_N (registeredServiceCount context) ->
  nth_error (registeredServices context)
            (Z.to_nat (handle - CHPP_HANDLE_NEGOTIATED_RANGE_START))
  = Some (Some s) ->
  minLength s <= len ->
  rxHeader_type buf = ret type ->
  is_message_type type = false ->
  chppProcessRxDatagram context buf len =
  mkRun [Log (CannotDispatchUnknownType type handle);
         EnqueueTxErrorDatagram (transportContext context)
                                CHPP_TRANSPORT_ERROR_APPLAYER]
        (Undefined NoReturnValue).
Proof.
  intros Hhandle Hlo Hhi Hslot Hlen Htype Hunknown.
  rewrite (negotiated_long_enough context buf len handle _ s
             Hhandle Hlo Hhi Hslot Hlen Htype).
  unfold is_message_type in Hunknown.
  repeat (apply orb_false_elim in Hunknown;
          destruct Hunknown as (Hunknown & ?)).
  unfold chppGetDispatchFunction.
  repeat match goal with
         | H : (_ =? _) = false |- _ => rewrite H; clear H
         end.
  reflexivity.
Qed.

(** *** The validator *)

(** The validator in closed form: either it is undefined in the lookup, or
    it compares with a minimum after at most one log line of its own. *)
Lemma chppDatagramLenIsOk_cases (context : ChppAppState) (handle len : Z) :
  (exists f, chppDatagramLenIsOk context handle len = undefined f)
  \/ exists minLen,
       chppDatagramLenIsOk context handle len
       = length_verdict handle len minLen
       \/ chppDatagramLenIsOk context handle len
          = mkRun (Log (InvalidPredefinedHandle handle)
                     :: trace (length_verdict handle len minLen))
                  (Returned (len >=? minLen)).
Proof.
  destruct (Z.ltb_spec handle CHPP_HANDLE_NEGOTIATED_RANGE_START)
    as [Hpre | Hneg].
  - right.
    destruct (Z.eq_dec handle CHPP_HANDLE_NONE) as [-> | Hn];
      [rewrite chppDatagramLenIsOk_none; eauto |].
    destruct (Z.eq_dec handle CHPP_HANDLE_LOOPBACK) as [-> | Hl];
      [rewrite chppDatagramLenIsOk_loopback; eauto |].
    destruct (Z.eq_dec handle CHPP_HANDLE_DISCOVERY) as [-> | Hd];
      [rewrite chppDatagramLenIsOk_discovery; eauto |].
    rewrite chppDatagramLenIsOk_invalid_predefined by assumption. eauto.
  - rewrite chppDatagramLenIsOk_negotiated by assumption.
    destruct (nth_error _ _) as [[s |] |]; eauto.
Qed.

(** X10.  Whenever the validator returns, it has logged the datagram as too
    short exactly when its verdict is negative. *)
Theorem validator_verdict_logged (context : ChppAppState) (handle len : Z)
    (ok : bool) :
  result (chppDatagramLenIsOk context handle len) = Returned ok ->
  (ok = false <->
   In (Log (DatagramTooShort handle len))
      (trace (chppDatagramLenIsOk context handle len))).
Proof.
  destruct (chppDatagramLenIsOk_cases context handle len)
    as [(f & ->) | (minLen & [-> | ->])].
  - discriminate.
  - unfold length_verdict. simpl. rewrite Z.geb_leb. intros [= <-].
    destruct (Z.ltb_spec len minLen) as [Hlt | Hge]; settle_tests; simpl.
    + tauto.
    + split; [discriminate | tauto].
  - unfold length_verdict. simpl. rewrite Z.geb_leb. intros [= <-].
    destruct (Z.ltb_spec len minLen) as [Hlt | Hge]; settle_tests; simpl.
    + split; [auto | reflexivity].
    + split; [discriminate |]. intros [H | []]. discriminate H.
Qed.

(** X11.  The validator is monotone in the length: a handle that accepts a
    length accepts every greater one, in the same context. *)
Theorem validator_monotone (context : ChppAppState) (handle len len' : Z) :
  result (chppDatagramLenIsOk context handle len) = Returned true ->
  len <= len' ->
  result (chppDatagramLenIsOk context handle len') = Returned true.
Proof.
  intros Hok Hle.
  destruct (Z.ltb_spec handle CHPP_HANDLE_NEGOTIATED_RANGE_START)
    as [Hpre | Hneg].
  - destruct (Z.eq_dec handle CHPP_HANDLE_NONE) as [-> | Hn];
      [rewrite chppDatagramLenIsOk_none in *
      | destruct (Z.eq_dec handle CHPP_HANDLE_LOOPBACK) as [-> | Hl];
        [rewrite chppDatagramLenIsOk_loopback in *
        | destruct (Z.eq_dec handle CHPP_HANDLE_DISCOVERY) as [-> | Hd];
          [rewrite chppDatagramLenIsOk_discovery in *
          | rewrite chppDatagramLenIsOk_invalid_predefined in *
              by assumption]]];
      simpl in *; injection Hok as Hok; rewrite Z.geb_leb in *;
      apply Z.leb_le in Hok; f_equal; apply Z.leb_le; lia.
  - rewrite chppDatagramLenIsOk_negotiated in * by assumption.
    destruct (nth_error _ _) as [[s |] |]; try discriminate.
    simpl in *. injection Hok as Hok. rewrite Z.geb_leb in *.
    apply Z.leb_le in Hok. f_equal. apply Z.leb_le. lia.
Qed.

(** *** Reads of the buffer and of the registry *)

(** X12.  With the registry as registration leaves it, no run logs the
    addressing error of [chppProcessRxDatagram]: the branch is reached only
    through a registry slot beyond the registered services, where the
    validator has already stopped the run. *)
Theorem addressing_error_never_logged (context : ChppAppState)
    (buf : buffer) (len handle l type transaction : Z) :
  registry_ok context = true ->
  ~ In (Log (InvalidHandle handle l type transaction))
       (trace (chppProcessRxDatagram context buf len)).
Proof.
  intros Hok. unfold_routing.
  destruct (load_cases buf 0) as [-> | (h & ->)]; [intros [] |].
  rewrite bind_ret.
  pose proof (chppDatagramLenIsOk_cases context h len) as Hcases.
  pose proof (N2Z.is_nonneg (registeredServiceCount context)).
  destruct (Z_le_gt_dec (CHPP_HANDLE_NEGOTIATED_RANGE_START
                         + Z.of_N (registeredServiceCount context)) h)
    as [Hout | Hin].
  - rewrite chppDatagramLenIsOk_negotiated by lia.
    destruct (unregistered_service context h Hok Hout) as [E | E];
      rewrite E; intros [].
  - assert (Hnot : forall t' : list Event,
               In (Log (InvalidHandle handle l type transaction))
                  (trace (chppDatagramLenIsOk context h len) ++ t') ->
               In (Log (InvalidHandle handle l type transaction)) t').
    { intros t' Hin'. apply in_app_or in Hin'.
      destruct Hin' as [Hin' |]; [| assumption]. exfalso.
      destruct Hcases as [(f & E) | (minLen & [E | E])];
        rewrite E in Hin'; unfold length_verdict in Hin'; simpl in Hin';
        try match type of Hin' with
            | context [if ?c then _ else _] => destruct c
            end;
        which_event Hin'. }
    destruct (chppDatagramLenIsOk context h len) as [t [[|] | f]];
      simpl in Hnot; rewrite ?bind_mkRun_returned, ?bind_mkRun_undefined;
      cbn beta iota; simpl trace;
      [| intros H'; apply Hnot in H'; which_event H'
       | intros H'; specialize (Hnot [] ); rewrite app_nil_r in Hnot;
         apply Hnot in H'; destruct H'].
    rewrite Z.geb_leb.
    settle (Z.of_N (registeredServiceCount context)
            + CHPP_HANDLE_NEGOTIATED_RANGE_START <=? h).
    split_run; intros H'; apply Hnot in H'; which_event H'.
Qed.

(** X13.  The minimum length of a loopback datagram covers the handle and
    the type only, but the log line for an unknown type also prints the
    transaction: on a buffer of exactly two bytes such a datagram makes the
    run read outside the buffer before anything is logged. *)
Theorem loopback_unknown_type_reads_past_two_bytes (context : ChppAppState)
    (buf : buffer) (len type : Z) :
  rxHeader_handle buf = ret CHPP_HANDLE_LOOPBACK ->
  rxHeader_type buf = ret type ->
  is_message_type type = false ->
  List.length buf = 2%nat ->
  sizeof_handle + sizeof_type <= len ->
  chppProcessRxDatagram context buf len = undefined OutOfBoundsRead.
Proof.
  intros Hhandle Htype Hunknown Hsize Hlen. platform_facts OK.
  pose proof (N2Z.is_nonneg (registeredServiceCount context)).
  assert (Htrans : rxHeader_transaction buf = undefined OutOfBoundsRead).
  { destruct buf as [| b0 [| b1 [| b2 buf]]]; try discriminate Hsize.
    reflexivity. }
  assert (Hval : forall k : bool -> Run unit,
             (ok <- chppDatagramLenIsOk context CHPP_HANDLE_LOOPBACK len ;;
              k ok)
             = (ok <- length_verdict CHPP_HANDLE_LOOPBACK len
                                     (sizeof_handle + sizeof_type) ;; k ok))
    by (intros k; now rewrite chppDatagramLenIsOk_loopback).
  unfold is_message_type in Hunknown.
  repeat (apply orb_false_elim in Hunknown;
          destruct Hunknown as (Hunknown & ?)).
  unfold chppProcessRxDatagram.
  rewrite Hhandle, bind_ret, Hval. unfold length_verdict.
  settle (len <? sizeof_handle + sizeof_type). rewrite Z.geb_leb.
  settle (sizeof_handle + sizeof_type <=? len).
  rewrite bind_mkRun_returned. cbn beta iota.
  settle_tests. rewrite Htype, bind_ret, Htrans.
  repeat match goal with
         | H : (_ =? _) = false |- _ => rewrite H; clear H
         end.
  reflexivity.
Qed.

End Coverage.

(** ** More of the UUID formatter *)

(** X14.  [chppUuidToStr] reads the first sixteen bytes only: bytes after
    them do not change the output. *)
Theorem chppUuidToStr_reads_sixteen_bytes (uuid extra : list byte) :
  List.length uuid = 16%nat ->
  Uuid.chppUuidToStr (uuid ++ extra) = Uuid.chppUuidToStr uuid.
Proof.
  intros H. destruct (sixteen_bytes uuid H)
    as (b0 & b1 & b2 & b3 & b4 & b5 & b6 & b7 & b8 & b9 & b10 & b11 & b12
        & b13 & b14 & b15 & ->).
  reflexivity.
Qed.

(** X15.  On an array of fewer than sixteen bytes [chppUuidToStr] reads
    past the end of the array. *)
Theorem chppUuidToStr_reads_past_short_array (uuid : list byte) :
  (List.length uuid < 16)%nat -> Uuid.chppUuidToStr uuid = None.
Proof.
  intros H.
  do 16 (destruct uuid as [| ? uuid]; [reflexivity |]).
  simpl in H. lia.
Qed.


(** ** The further theorems at concrete inputs *)

Lemma at_most_one_effect_witness :
  result (sample_run sample_context (datagram x0f x7f) 6) = Returned tt
  /\ (effect_count (trace (sample_run sample_context (datagram x0f x7f) 6))
      <= 1)%nat.
Proof.
  split; [reflexivity |].
  apply (at_most_one_effect (P := sample_platform) sample_context
           (datagram x0f x7f) 6).
  reflexivity.
Defined.

Lemma dispatch_is_justified_witness :
  result (sample_run sample_context (datagram x10 x00) 6) = Returned tt
  /\ In (Dispatch (Registered (DispatchFn 100)) sample_context
                  (datagram x10 x00) 6)
        (trace (sample_run sample_context (datagram x10 x00) 6))
  /\ exists handle,
       rxHeader_handle (datagram x10 x00) = ret handle
       /\ result (@chppDatagramLenIsOk sample_platform sample_context
                                       handle 6) = Returned true.
Proof.
  assert (H : In (Dispatch (Registered (DispatchFn 100)) sample_context
                           (datagram x10 x00) 6)
                 (trace (sample_run sample_context (datagram x10 x00) 6)))
    by (simpl; auto).
  split; [reflexivity | split; [exact H |]].
  destruct (dispatch_is_justified (P := sample_platform) sample_context
              (datagram x10 x00) 6 _ _ _ _ eq_refl H)
    as (_ & _ & _ & handle & Hhandle & Hval & _).
  now exists handle.
Defined.

Lemma enqueue_only_for_unknown_type_witness :
  In (EnqueueTxErrorDatagram sample_transport 7)
     (trace (sample_run sample_context (datagram x0f x7f) 6))
  /\ exists type,
       rxHeader_type (datagram x0f x7f) = ret type
       /\ @is_message_type sample_platform type = false.
Proof.
  assert (H : In (EnqueueTxErrorDatagram sample_transport 7)
                 (trace (sample_run sample_context (datagram x0f x7f) 6)))
    by (simpl; auto).
  split; [exact H |].
  destruct (enqueue_only_for_unknown_type (P := sample_platform) _ _ _ _ _ H)
    as (_ & _ & handle & type & _ & Htype & Hunknown & _).
  now exists type.
Defined.

Lemma discovery_routing_witness :
  rxHeader_handle (datagram x0f x00)
  = ret (@CHPP_HANDLE_DISCOVERY sample_platform)
  /\ sample_run sample_context (datagram x0f x00) 6 =
     mkRun [Dispatch chppDispatchDiscoveryClientRequest sample_context
                     (datagram x0f x00) 6;
            sample_done (datagram x0f x00)]
           (Returned tt)
  /\ sample_run sample_context (datagram x0f x00) 5 =
     mkRun [Log (DatagramTooShort 15 5); sample_done (datagram x0f x00)]
           (Returned tt).
Proof.
  split; [reflexivity |].
  destruct (discovery_routing (P := sample_platform)
              (OK := sample_platform_ok) sample_context (datagram x0f x00) 6
              eq_refl) as (Hreq & _ & _).
  destruct (discovery_routing (P := sample_platform)
              (OK := sample_platform_ok) sample_context (datagram x0f x00) 5
              eq_refl) as (_ & _ & Hshort).
  split.
  - apply Hreq; [simpl; lia | reflexivity].
  - apply Hshort. simpl; lia.
Defined.

Lemma loopback_service_response_ignored_witness :
  rxHeader_handle (datagram x01 x01)
  = ret (@CHPP_HANDLE_LOOPBACK sample_platform)
  /\ sample_run sample_context (datagram x01 x01) 2 =
     mkRun [sample_done (datagram x01 x01)] (Returned tt).
Proof.
  split; [reflexivity |].
  apply (loopback_service_response_ignored (P := sample_platform)
           (OK := sample_platform_ok) sample_context (datagram x01 x01) 2);
    [reflexivity | reflexivity | unfold sizeof_handle, sizeof_type; lia].
Defined.

Lemma predefined_notifications_unsupported_witness :
  @chppDatagramLenIsOk sample_platform sample_context 15 6
  = mkRun [] (Returned true)
  /\ sample_run sample_context (datagram x0f x02) 6 =
     mkRun [Log (NoClientNotifications 15); sample_done (datagram x0f x02)]
           (Returned tt).
Proof.
  split; [reflexivity |].
  destruct (predefined_notifications_unsupported (P := sample_platform)
              (OK := sample_platform_ok) sample_context (datagram x0f x02)
              6 15 [])
    as (Hcn & _);
    [reflexivity | simpl; lia | discriminate | reflexivity |].
  apply Hcn. reflexivity.
Defined.

Lemma none_handle_routing_witness :
  rxHeader_handle [x00]%byte = ret (@CHPP_HANDLE_NONE sample_platform)
  /\ sample_run sample_context [x00]%byte 1 =
     mkRun [Dispatch chppDispatchNonHandle sample_context [x00]%byte 1;
            sample_done [x00]%byte]
           (Returned tt)
  /\ sample_run sample_context [x00]%byte 0 =
     mkRun [Log (DatagramTooShort 0 0); sample_done [x00]%byte]
           (Returned tt).
Proof.
  split; [reflexivity |].
  destruct (none_handle_routing (P := sample_platform)
              (OK := sample_platform_ok) sample_context [x00]%byte 1
              eq_refl) as (Hlong & _).
  destruct (none_handle_routing (P := sample_platform)
              (OK := sample_platform_ok) sample_context [x00]%byte 0
              eq_refl) as (_ & Hshort).
  split.
  - apply Hlong. unfold sizeof_handle; lia.
  - apply Hshort. unfold sizeof_handle; lia.
Defined.

Lemma negotiated_client_notification_witness :
  nth_error (registeredServices two_service_context) 1
  = Some (Some notifying_service)
  /\ @chppProcessRxDatagram sample_platform two_service_context
                            (datagram x11 x02) 6 =
     mkRun [Dispatch (Registered (DispatchFn 200)) two_service_context
                     (datagram x11 x02) 6;
            sample_done (datagram x11 x02)]
           (Returned tt).
Proof.
  split; [reflexivity |].
  apply (negotiated_client_notification (P := sample_platform)
           (OK := sample_platform_ok) two_service_context
           (datagram x11 x02) 6 17 notifying_service);
    try reflexivity; simpl; lia.
Defined.

Lemma negotiated_unknown_type_undefined_witness :
  @is_message_type sample_platform 127 = false
  /\ sample_run sample_context (datagram x10 x7f) 6 =
     mkRun [Log (CannotDispatchUnknownType 127 16);
            EnqueueTxErrorDatagram sample_transport 7]
           (Undefined NoReturnValue).
Proof.
  split; [reflexivity |].
  apply (negotiated_unknown_type_undefined (P := sample_platform)
           (OK := sample_platform_ok) sample_context (datagram x10 x7f)
           6 16 127 sample_service);
    try reflexivity; simpl; lia.
Defined.

Lemma validator_verdict_logged_witness :
  result (@chppDatagramLenIsOk sample_platform sample_context 16 5)
  = Returned false
  /\ In (Log (DatagramTooShort 16 5))
        (trace (@chppDatagramLenIsOk sample_platform sample_context 16 5)).
Proof.
  split; [reflexivity |].
  apply (validator_verdict_logged (P := sample_platform)
           (OK := sample_platform_ok) sample_context 16 5 false);
    reflexivity.
Defined.

Lemma validator_monotone_witness :
  result (@chppDatagramLenIsOk sample_platform sample_context 16 6)
  = Returned true
  /\ result (@chppDatagramLenIsOk sample_platform sample_context 16 1500)
     = Returned true.
Proof.
  split; [reflexivity |].
  apply (validator_monotone (P := sample_platform)
           (OK := sample_platform_ok) sample_context 16 6 1500);
    [reflexivity | lia].
Defined.

Lemma addressing_error_never_logged_witness :
  registry_ok sample_context = true
  /\ ~ In (Log (InvalidHandle 17 6 0 42))
          (trace (sample_run sample_context (datagram x11 x00) 6)).
Proof.
  split; [reflexivity |].
  apply (addressing_error_never_logged (P := sample_platform)
           (OK := sample_platform_ok) sample_context (datagram x11 x00)
           6 17 6 0 42).
  reflexivity.
Defined.

Lemma loopback_unknown_type_reads_past_two_bytes_witness :
  List.length [x01; x7f]%byte = 2%nat
  /\ sample_run sample_context [x01; x7f]%byte 2
     = undefined OutOfBoundsRead.
Proof.
  split; [reflexivity |].
  apply (loopback_unknown_type_reads_past_two_bytes (P := sample_platform)
           (OK := sample_platform_ok) sample_context [x01; x7f]%byte 2 127);
    try reflexivity; try (unfold sizeof_handle, sizeof_type; lia).
Defined.

Lemma chppProcessRxDatagram_returns_witness :
  registry_ok two_service_context = true
  /\ result (@chppProcessRxDatagram sample_platform two_service_context
                                    (datagram x11 x03) 6) = Returned tt.
Proof.
  split; [reflexivity |].
  apply (chppProcessRxDatagram_returns (P := sample_platform)
           (OK := sample_platform_ok) two_service_context
           (datagram x11 x03) 6 17 3 42);
    try reflexivity; try (simpl; lia); intros _; tauto.
Defined.

Lemma chppUuidToStr_reads_sixteen_bytes_witness :
  List.length Uuid.sample_uuid = 16%nat
  /\ Uuid.chppUuidToStr (Uuid.sample_uuid ++ [xff; xff]%byte)
     = Some "12345678-9abc-def0-0123-456789abcdef"%string.
Proof.
  split; [reflexivity |].
  rewrite (chppUuidToStr_reads_sixteen_bytes Uuid.sample_uuid
             [xff; xff]%byte eq_refl).
  reflexivity.
Defined.

Lemma chppUuidToStr_reads_past_short_array_witness :
  (List.length (firstn 15 Uuid.sample_uuid) < 16)%nat
  /\ Uuid.chppUuidToStr (firstn 15 Uuid.sample_uuid) = None.
Proof.
  split; [simpl; lia |].
  apply (chppUuidToStr_reads_past_short_array (firstn 15 Uuid.sample_uuid)).
  simpl; lia.
Defined.
